(** * tools/webpack/packages.js

    A shallow embedding of the webpack configuration factory of
    wordpress-develop and the properties its description states.

    Strings are [String.string]: the regular expressions and string tests of
    the file only tell apart characters of the ASCII range, so a wider code
    unit behaves like any character that is neither a dash nor a lowercase
    letter.  A JavaScript object whose key order matters
    (the vendor tables, [dependencies], [phpFiles]) is the list of its own
    enumerable properties in [Object.keys] order; the [entry] object, which is
    only ever looked up by key, is a [gmap].  What the file obtains from Node
    and from other packages ([path.join], [__dirname], the package manifest,
    the two minifiers, [process.env]) is collected in the class [Host]. *)

From stdpp Require Import base strings gmap list.
From Stdlib Require Import Ascii String ZArith Lia.

Local Open Scope string_scope.

(** ** JavaScript values and operators *)

(** The values the option object's fields take: absent, a boolean flag, or a
    string. *)
Inductive value : Type :=
  | VUndefined
  | VBool (b : bool)
  | VString (s : string).

(** ToBoolean, as used by [? :] and [||]. *)
Definition truthy (v : value) : bool :=
  match v with
  | VUndefined => false
  | VBool b => b
  | VString s => negb (String.eqb s "")
  end.

(** [v === 'literal']. *)
Definition strict_eq (v : value) (literal : string) : bool :=
  match v with
  | VString s => String.eqb s literal
  | _ => false
  end.

(** ToString, as applied by [+] with a string operand. *)
Definition ToString (v : value) : string :=
  match v with
  | VUndefined => "undefined"
  | VBool true => "true"
  | VBool false => "false"
  | VString s => s
  end.

(** [process.env.NAME || fallback]: an unset or empty variable is falsy. *)
Definition env_or (variable : option string) (fallback : string) : string :=
  match variable with
  | Some s => if String.eqb s "" then fallback else s
  | None => fallback
  end.

(** A call either returns or throws. *)
Inductive completion (A : Type) : Type :=
  | Return (a : A)
  | Throw (e : string).
Arguments Return {A} a.
Arguments Throw {A} e.

(** A settled promise. *)
Inductive promise (A : Type) : Type :=
  | Fulfilled (a : A)
  | Rejected (e : string).
Arguments Fulfilled {A} a.
Arguments Rejected {A} e.

(** [p.then( f )] for a callback that does not throw. *)
Definition promise_then {A B : Type} (p : promise A) (f : A -> B) : promise B :=
  match p with
  | Fulfilled a => Fulfilled (f a)
  | Rejected e => Rejected e
  end.

(** ** Objects with ordered keys *)

Definition object (V : Type) : Type := list (string * V).

Definition Object_keys {V : Type} (o : object V) : list string := map fst o.

(** [o[ k ]] on own properties. *)
Fixpoint get {V : Type} (o : object V) (k : string) : option V :=
  match o with
  | [] => None
  | (k', v) :: o' => if String.eqb k' k then Some v else get o' k
  end.

(** [o[ k ] = v] for a string [v].  Assigning a string to [__proto__] goes to
    the setter inherited from [Object.prototype], which ignores it; any other
    key is overwritten in place or added last (no key assigned through this
    function in the file is an array index). *)
Fixpoint overwrite {V : Type} (o : object V) (k : string) (v : V) : object V :=
  match o with
  | [] => [(k, v)]
  | (k', v') :: o' =>
      if String.eqb k' k then (k', v) :: o' else (k', v') :: overwrite o' k v
  end.

Definition set_property {V : Type} (o : object V) (k : string) (v : V) : object V :=
  if String.eqb k "__proto__" then o else overwrite o k v.

(** The same assignment on an object used as a map only. *)
Definition assign (memo : gmap string string) (k v : string) : gmap string string :=
  if String.eqb k "__proto__" then memo else <[k := v]> memo.

(** [`${ o[ k ] }`]: a missing property interpolates as "undefined". *)
Definition interpolate (property : option string) : string :=
  match property with
  | Some s => s
  | None => "undefined"
  end.

(** ** String methods *)

Fixpoint skip (n : nat) (s : string) : string :=
  match n, s with
  | O, _ => s
  | S n', String _ s' => skip n' s'
  | S _, EmptyString => EmptyString
  end.

(** [s.startsWith( searchString )]. *)
Definition startsWith (s searchString : string) : bool :=
  String.prefix searchString s.

(** [s.replace( pattern, replacement )] with a string pattern: the first
    occurrence is replaced.  The replacements of the file contain no [$]. *)
Fixpoint replace (s pattern replacement : string) {struct s} : string :=
  if String.prefix pattern s
  then replacement ++ skip (String.length pattern) s
  else match s with
       | EmptyString => EmptyString
       | String c s' => String c (replace s' pattern replacement)
       end.

(** [targetPath.replace( /\.css$/, '.min.css' )]: the scan stops at the first
    position from which the rest of the string is exactly ".css". *)
Fixpoint replace_css_end (targetPath : string) : string :=
  if String.eqb targetPath ".css"
  then ".min.css"
  else match targetPath with
       | EmptyString => EmptyString
       | String c rest => String c (replace_css_end rest)
       end.

(** [names.join( separator )]. *)
Fixpoint Array_join (names : list string) (separator : string) : string :=
  match names with
  | [] => ""
  | [name] => name
  | name :: rest => name ++ separator ++ Array_join rest separator
  end.

(** The class [[a-z]] of the regular expression. *)
Definition lowercase (c : ascii) : bool :=
  (97 <=? nat_of_ascii c)%nat && (nat_of_ascii c <=? 122)%nat.

(** [letter.toUpperCase()] on a letter captured by [[a-z]]. *)
Definition toUpperCase (letter : ascii) : ascii :=
  ascii_of_nat (nat_of_ascii letter - 32).

Definition dash : ascii := "-"%char.

(** ** camelCaseDash

    [string.replace( /-([a-z])/g, ( match, letter ) => letter.toUpperCase() )]:
    the global scan goes left to right; where a dash is followed by a
    lowercase letter the two are consumed and the upper-cased letter is
    emitted, anywhere else one character is copied. *)
Fixpoint camelCaseDash (s : string) : string :=
  match s with
  | EmptyString => EmptyString
  | String c rest =>
      match rest with
      | String letter rest' =>
          if Ascii.eqb c dash && lowercase letter
          then String (toUpperCase letter) (camelCaseDash rest')
          else String c (camelCaseDash rest)
      | EmptyString => String c EmptyString
      end
  end.

(** Predicates the statements about the scan use: the string ends with a
    dash, begins with a lowercase letter; the character is a decimal digit. *)
Fixpoint endsWithDash (s : string) : bool :=
  match s with
  | EmptyString => false
  | String c EmptyString => Ascii.eqb c dash
  | String _ s' => endsWithDash s'
  end.

Definition startsLowercase (s : string) : bool :=
  match s with
  | EmptyString => false
  | String c _ => lowercase c
  end.

Definition digit (c : ascii) : bool :=
  (48 <=? nat_of_ascii c)%nat && (nat_of_ascii c <=? 57)%nat.

(** ** The host: Node and the packages the file requires

    None of these is part of the repository; the configuration is a function
    of them. *)

Definition Buffer : Type := list Byte.byte.

(** The object returned by [UglifyJS.minify]; the file reads its [code]
    property only, which is absent when no code was produced. *)
Record MinifyOutput : Type := { code : option string }.

(** The object a postcss run resolves to; the file reads [css] only. *)
Record PostcssResult : Type := { css : string }.

Class Host : Type := {
  (** [require( 'path' ).join], applied to two arguments throughout. *)
  join : string -> string -> string;
  (** [__dirname] *)
  dirname : string;
  (** [require( '../../package' ).dependencies] *)
  dependencies : object string;
  (** [content.toString()] *)
  Buffer_toString : Buffer -> string;
  (** [UglifyJS.minify] *)
  UglifyJS_minify : string -> completion MinifyOutput;
  (** [postcss( [ cssnano ] ).process( content, ... )] *)
  postcss_cssnano_process : Buffer -> promise PostcssResult;
  (** [process.env] *)
  process_env : string -> option string;
}.

(** *** A POSIX instance of [path.join]

    Node's behaviour on POSIX systems, used to evaluate the configuration on
    concrete inputs: empty arguments are dropped, the rest are joined with a
    slash and the result is normalised. *)
Module Posix.

Definition slash : ascii := "/"%char.

Fixpoint split (s : string) : list string :=
  match s with
  | EmptyString => [""]
  | String c s' =>
      if Ascii.eqb c slash then "" :: split s'
      else match split s' with
           | segment :: segments => String c segment :: segments
           | [] => [String c ""]
           end
  end.

(** One segment of [normalizeString]; [stack] holds the kept segments, last
    one first. *)
Definition step (allowAboveRoot : bool) (stack : list string) (segment : string)
  : list string :=
  if String.eqb segment "" || String.eqb segment "." then stack
  else if String.eqb segment ".." then
    match stack with
    | top :: below =>
        if String.eqb top ".." then ".." :: stack else below
    | [] => if allowAboveRoot then [".."] else []
    end
  else segment :: stack.

Definition normalizeString (path : string) (allowAboveRoot : bool) : string :=
  Array_join (rev (fold_left (step allowAboveRoot) (split path) [])) "/".

Fixpoint endsWithSlash (s : string) : bool :=
  match s with
  | EmptyString => false
  | String c EmptyString => Ascii.eqb c slash
  | String _ s' => endsWithSlash s'
  end.

Definition normalize (path : string) : string :=
  if String.eqb path "" then "."
  else
    let isAbsolute := String.prefix "/" path in
    let trailingSeparator := endsWithSlash path in
    let normalized := normalizeString path (negb isAbsolute) in
    if String.eqb normalized "" then
      if isAbsolute then "/" else if trailingSeparator then "./" else "."
    else
      let normalized :=
        if trailingSeparator then normalized ++ "/" else normalized in
      if isAbsolute then "/" ++ normalized else normalized.

Definition join (a b : string) : string :=
  let joined :=
    if String.eqb a "" then b
    else if String.eqb b "" then a
    else a ++ "/" ++ b in
  if String.eqb joined "" then "." else normalize joined.

End Posix.

(** ** Data of the configuration *)

(** What a transform hands back to the copy plugin: the content it was given,
    the [code] property of a minifier output, or a promise of a string. *)
Inductive content : Type :=
  | Unchanged (buffer : Buffer)
  | Code (property : option string)
  | Pending (p : promise string).

(** A copy command of the CopyWebpackPlugin.  [flatten] is [false] where the
    source leaves it out. *)
Record copy : Type := {
  from : string;
  to : string;
  test : option string;
  flatten : bool;
  transform : option (Buffer -> completion content);
  transformPath : option (string -> string -> string);
}.

(** The argument of the exported function; a field the caller left out is
    [VUndefined]. *)
Record Env : Type := {
  environment : value;
  env_watch : value;
  env_buildTarget : value;
}.

Record Output : Type := {
  devtoolNamespace : string;
  filename : string;
  path : string;
  library_root : list string;
  libraryTarget : string;
}.

(** A loader rule; [rule_test] is the source of its regular expression. *)
Record Rule : Type := {
  rule_test : string;
  use : list string;
  enforce : string;
}.

(** The plugins, with the arguments the file gives them.  The [basename]
    callback handed to the CustomTemplatedPathPlugin runs inside the bundler
    and is not part of the model. *)
Inductive Plugin : Type :=
  | DefinePlugin (definitions : list (string * Z))
  | LibraryExportDefaultPlugin (names : list string)
  | CustomTemplatedPathPlugin
  | DependencyExtractionPlugin (injectPolyfill : bool)
  | CopyWebpackPlugin (copies : list copy)
  | LiveReloadPlugin (port : string + Z).

(** The returned object.  [devtool] and [optimization] are absent when
    [None]; [optimization] holds its [minimize] flag. *)
Record Config : Type := {
  mode : value;
  entry : gmap string string;
  output : Output;
  resolve_modules : list string;
  resolve_alias : object string;
  module_rules : list Rule;
  plugins : list Plugin;
  stats_children : bool;
  watch : value;
  devtool : option string;
  optimization : option bool;
}.

(** The assignments made to [config] after the literal touch four of its
    properties; the others are kept. *)
Definition reassign (config : Config) (mode : value) (plugins : list Plugin)
  (devtool : option string) (optimization : option bool) : Config :=
  {| mode := mode;
     entry := entry config;
     output := output config;
     resolve_modules := resolve_modules config;
     resolve_alias := resolve_alias config;
     module_rules := module_rules config;
     plugins := plugins;
     stats_children := stats_children config;
     watch := watch config;
     devtool := devtool;
     optimization := optimization |}.

Definition isLiveReload (p : Plugin) : bool :=
  match p with
  | LiveReloadPlugin _ => true
  | _ => false
  end.

(** The default value of the parameter [env]. *)
Definition default_env : Env :=
  {| environment := VString "production";
     env_watch := VBool false;
     env_buildTarget := VBool false |}.

Definition WORDPRESS_NAMESPACE : string := "@wordpress/".

Definition vendors : object string :=
  [ ("lodash.js", "lodash/lodash.js");
    ("wp-polyfill.js", "@babel/polyfill/dist/polyfill.js");
    ("wp-polyfill-fetch.js", "whatwg-fetch/dist/fetch.umd.js");
    ("wp-polyfill-element-closest.js", "element-closest/element-closest.js");
    ("wp-polyfill-node-contains.js",
       "polyfill-library/polyfills/Node/prototype/contains/polyfill.js");
    ("wp-polyfill-formdata.js", "formdata-polyfill/FormData.js");
    ("moment.js", "moment/moment.js");
    ("react.js", "react/umd/react.development.js");
    ("react-dom.js", "react-dom/umd/react-dom.development.js") ].

Definition minifiedVendors : object string :=
  [ ("lodash.min.js", "lodash/lodash.min.js");
    ("wp-polyfill.min.js", "@babel/polyfill/dist/polyfill.min.js");
    ("wp-polyfill-formdata.min.js", "formdata-polyfill/formdata.min.js");
    ("moment.min.js", "moment/min/moment.min.js");
    ("react.min.js", "react/umd/react.production.min.js");
    ("react-dom.min.js", "react-dom/umd/react-dom.production.min.js") ].

Definition minifyVendors : object string :=
  [ ("wp-polyfill-fetch.min.js", "whatwg-fetch/dist/fetch.umd.js");
    ("wp-polyfill-element-closest.min.js", "element-closest/element-closest.js");
    ("wp-polyfill-node-contains.min.js",
       "polyfill-library/polyfills/Node/prototype/contains/polyfill.js") ].

Definition blockNames : list string :=
  [ "archives"; "block"; "calendar"; "categories"; "latest-comments";
    "latest-posts"; "navigation"; "rss"; "search"; "shortcode"; "tag-cloud" ].

(** [{ 'block-serialization-default-parser/parser.php': ..., ...reduce }] *)
Definition phpFiles : object string :=
  fold_left (fun literal '(k, v) => overwrite literal k v)
    (fold_left
       (fun files blockName =>
          set_property files
            ("block-library/src/" ++ blockName ++ "/index.php")
            ("wp-includes/blocks/" ++ blockName ++ ".php"))
       blockNames [])
    [ ("block-serialization-default-parser/parser.php",
       "wp-includes/class-wp-block-parser.php") ].

(** [const suffix] *)
Definition suffix (mode : value) : string :=
  if strict_eq mode "production" then ".min" else "".

(** [let buildTarget], after both assignments. *)
Definition buildTarget (env : Env) : string :=
  let mode := environment env in
  let buildTarget :=
    if truthy (env_buildTarget env) then env_buildTarget env
    else VString (if strict_eq mode "production" then "build" else "src") in
  ToString buildTarget ++ "/wp-includes".

(** [const packages], as a function of the manifest's [dependencies]. *)
Definition packages (dependencies : object string) : list string :=
  map (fun packageName => replace packageName WORDPRESS_NAMESPACE "")
    (List.filter (fun packageName => startsWith packageName WORDPRESS_NAMESPACE)
       (Object_keys dependencies)).

(** [( targetPath, sourcePath ) => ...] of the stylesheet copies. *)
Definition css_transformPath (mode : value) (targetPath sourcePath : string) : string :=
  if strict_eq mode "production" then replace_css_end targetPath else targetPath.

(** ** The functions of the file *)

Section Packages.

Context {host : Host}.

(** [const baseDir = join( __dirname, '../../' )] *)
Definition baseDir : string := join dirname "../../".

Definition mapVendorCopies (vendors : object string) (buildTarget : string)
  : list copy :=
  map (fun filename =>
         {| from := join baseDir ("node_modules/" ++ interpolate (get vendors filename));
            to := join baseDir (buildTarget ++ "/js/dist/vendor/" ++ filename);
            test := None;
            flatten := false;
            transform := None;
            transformPath := None |})
    (Object_keys vendors).

(** [test] holds the source of the RegExp.  The pattern is the cooked value of
    the template literal, in which [\/] and [\.] are plain [/] and [.]: the
    dot before "json" is not escaped in the expression. *)
Definition blockMetadataCopies (buildTarget : string) : copy :=
  {| from := join baseDir
       ("node_modules/@wordpress/block-library/src/+("
          ++ Array_join blockNames "|" ++ ")/block.json");
     to := join baseDir (buildTarget ++ "/blocks/[1]/block.json");
     test := Some "\/([^/]+)\/block.json$";
     flatten := false;
     transform := None;
     transformPath := None |}.

Definition developmentCopies (buildTarget : string) : list copy :=
  mapVendorCopies vendors buildTarget.

Definition minifiedCopies (buildTarget : string) : list copy :=
  mapVendorCopies minifiedVendors buildTarget.

(** [( content ) => UglifyJS.minify( content.toString() ).code] *)
Definition minify_transform (input : Buffer) : completion content :=
  match UglifyJS_minify (Buffer_toString input) with
  | Return minified => Return (Code (code minified))
  | Throw e => Throw e
  end.

Definition minifyCopies (buildTarget : string) : list copy :=
  map (fun copyCommand =>
         {| from := from copyCommand;
            to := to copyCommand;
            test := test copyCommand;
            flatten := flatten copyCommand;
            transform := Some minify_transform;
            transformPath := transformPath copyCommand |})
    (mapVendorCopies minifyVendors buildTarget).

Definition vendorCopies (mode : value) (buildTarget : string) : list copy :=
  if strict_eq mode "development" then developmentCopies buildTarget
  else minifiedCopies buildTarget ++ minifyCopies buildTarget.

(** [( content ) => ...] of the stylesheet copies. *)
Definition css_transform (mode : value) (input : Buffer) : completion content :=
  if strict_eq mode "production"
  then Return (Pending (promise_then (postcss_cssnano_process input) css))
  else Return (Unchanged input).

Definition cssCopy (mode : value) (buildTarget packageName : string) : copy :=
  {| from := join baseDir
       ("node_modules/@wordpress/" ++ packageName ++ "/build-style/*.css");
     to := join baseDir (buildTarget ++ "/css/dist/" ++ packageName ++ "/");
     test := None;
     flatten := true;
     transform := Some (css_transform mode);
     transformPath := Some (css_transformPath mode) |}.

Definition cssCopies (packages : list string) (mode : value) (buildTarget : string)
  : list copy :=
  map (cssCopy mode buildTarget) packages.

Definition phpCopies : list copy :=
  map (fun filename =>
         {| from := join baseDir ("node_modules/@wordpress/" ++ filename);
            to := join baseDir ("src/" ++ interpolate (get phpFiles filename));
            test := None;
            flatten := false;
            transform := None;
            transformPath := None |})
    (Object_keys phpFiles).

(** [packages.reduce( ( memo, packageName ) => ..., {} )] *)
Definition entry_of (packages : list string) : gmap string string :=
  fold_left
    (fun memo packageName =>
       let name := camelCaseDash packageName in
       assign memo name (join baseDir ("node_modules/@wordpress/" ++ packageName)))
    packages ∅.

(** The object literal bound to [config]. *)
Definition config_literal (env : Env) : Config :=
  let mode := environment env in
  {| mode := mode;
     entry := entry_of (packages dependencies);
     output :=
       {| devtoolNamespace := "wp";
          filename := "[basename]" ++ suffix mode ++ ".js";
          path := join baseDir (buildTarget env ++ "/js/dist");
          library_root := [ "wp"; "[name]" ];
          libraryTarget := "this" |};
     resolve_modules := [ baseDir; "node_modules" ];
     resolve_alias := [ ("lodash-es", "lodash") ];
     module_rules :=
       [ {| rule_test := "\.js$";
            use := [ "source-map-loader" ];
            enforce := "pre" |} ];
     plugins :=
       [ DefinePlugin [ ("process.env.GUTENBERG_PHASE", 1%Z) ];
         LibraryExportDefaultPlugin
           (map camelCaseDash
              [ "api-fetch"; "deprecated"; "dom-ready"; "redux-routine";
                "token-list"; "server-side-render"; "shortcode" ]);
         CustomTemplatedPathPlugin;
         DependencyExtractionPlugin true;
         CopyWebpackPlugin
           (vendorCopies mode (buildTarget env)
              ++ cssCopies (packages dependencies) mode (buildTarget env)
              ++ phpCopies
              ++ [ blockMetadataCopies (buildTarget env) ]) ];
     stats_children := false;
     watch := env_watch env;
     devtool := None;
     optimization := None |}.

(** [if ( config.mode !== 'production' ) config.devtool = ...] *)
Definition set_devtool (config : Config) : Config :=
  if negb (strict_eq (mode config) "production")
  then reassign config (mode config) (plugins config)
         (Some (env_or (process_env "SOURCEMAP") "source-map"))
         (optimization config)
  else config.

(** [if ( mode === 'development' && env.buildTarget === 'build/' ) ...] *)
Definition build_override (env : Env) (config : Config) : Config :=
  if strict_eq (environment env) "development"
     && strict_eq (env_buildTarget env) "build/"
  then reassign config (VString "production") (plugins config) None (Some false)
  else config.

(** [if ( config.mode === 'development' ) config.plugins.push( ... )] *)
Definition add_live_reload (config : Config) : Config :=
  if strict_eq (mode config) "development"
  then reassign config (mode config)
         (plugins config
            ++ [ LiveReloadPlugin
                   match process_env "WORDPRESS_LIVE_RELOAD_PORT" with
                   | Some port => if String.eqb port "" then inr 35729%Z else inl port
                   | None => inr 35729%Z
                   end ])
         (devtool config) (optimization config)
  else config.

(** [module.exports]; [None] is a call without argument. *)
Definition module_exports (argument : option Env) : Config :=
  let env := match argument with Some env => env | None => default_env end in
  add_live_reload (build_override env (set_devtool (config_literal env))).

End Packages.

(** ** Fixtures

    A host on which the configuration is evaluated: POSIX paths, the file in
    [/repo/tools/webpack], stand-ins for the two minifiers. *)

Definition posix (manifest : object string) (minify : string -> completion MinifyOutput)
  (variables : string -> option string) : Host :=
  {| join := Posix.join;
     dirname := "/repo/tools/webpack";
     dependencies := manifest;
     Buffer_toString := string_of_list_byte;
     UglifyJS_minify := minify;
     postcss_cssnano_process :=
       fun input => Fulfilled {| css := string_of_list_byte input |};
     process_env := variables |}.

(** A minifier stand-in that accepts every source. *)
Definition plain_minify (source : string) : completion MinifyOutput :=
  Return {| code := Some source |}.

(** A minifier that reports a source it cannot parse (here the text
    "function(") in its output, which then has no [code], and throws
    nothing. *)
Definition reporting_minify (source : string) : completion MinifyOutput :=
  if String.eqb source "function("
  then Return {| code := None |}
  else Return {| code := Some source |}.

(** A minifier that throws on the same source. *)
Definition throwing_minify (source : string) : completion MinifyOutput :=
  if String.eqb source "function("
  then Throw "SyntaxError: Unexpected token"
  else Return {| code := Some source |}.

Definition no_variables (name : string) : option string := None.

Definition manifest : object string :=
  [ ("@wordpress/a11y", "2.5.0"); ("lodash", "4.17.15");
    ("@wordpress/api-fetch", "3.6.0") ].

Definition posix_host : Host := posix manifest plain_minify no_variables.

Definition reporting_host : Host := posix manifest reporting_minify no_variables.

Definition throwing_host : Host := posix manifest throwing_minify no_variables.

(** An options object that only sets [watch]. *)
Definition watch_only : Env :=
  {| environment := VUndefined;
     env_watch := VBool true;
     env_buildTarget := VUndefined |}.

(** A development call with an empty override. *)
Definition empty_override : Env :=
  {| environment := VString "development";
     env_watch := VBool false;
     env_buildTarget := VString "" |}.

(** [--env.environment=development --env.buildTarget=build/] *)
Definition development_build : Env :=
  {| environment := VString "development";
     env_watch := VBool false;
     env_buildTarget := VString "build/" |}.

Definition development_watch : Env :=
  {| environment := VString "development";
     env_watch := VBool true;
     env_buildTarget := VBool false |}.

(** The text "function(" as file content. *)
Definition broken_source : Buffer := list_byte_of_string "function(".

(** The first needs-minification copy for the build target
    "build/wp-includes" on a POSIX host. *)
Definition fetch_copy (host : Host) : copy :=
  {| from := "/repo/node_modules/whatwg-fetch/dist/fetch.umd.js";
     to := "/repo/build/wp-includes/js/dist/vendor/wp-polyfill-fetch.min.js";
     test := None;
     flatten := false;
     transform := Some (@minify_transform host);
     transformPath := None |}.

(** ** Further predicates on names *)

(** A dash directly followed by a lowercase letter occurs in the string: the
    regular expression of [camelCaseDash] has a match. *)
Fixpoint hasDashLetter (s : string) : bool :=
  match s with
  | EmptyString => false
  | String c rest =>
      (Ascii.eqb c dash && startsLowercase rest) || hasDashLetter rest
  end.

Definition uppercase (c : ascii) : bool :=
  (65 <=? nat_of_ascii c)%nat && (nat_of_ascii c <=? 90)%nat.

Fixpoint hasUppercase (s : string) : bool :=
  match s with
  | EmptyString => false
  | String c rest => uppercase c || hasUppercase rest
  end.

(** Undoes [camelCaseDash] on names without uppercase letters: each uppercase
    letter goes back to a dash and the lowercase letter. *)
Fixpoint dashCase (s : string) : string :=
  match s with
  | EmptyString => EmptyString
  | String c rest =>
      if uppercase c
      then String dash (String (ascii_of_nat (nat_of_ascii c + 32)) (dashCase rest))
      else String c (dashCase rest)
  end.

(** ** The path template callback

    [basename( path, data )], handed to the CustomTemplatedPathPlugin.  A
    property that holds an object may also be [undefined] or [null], and the
    code tells the two apart where lodash's [get] does. *)
Inductive slot (A : Type) : Type :=
  | Undefined
  | Null
  | Present (a : A).
Arguments Undefined {A}.
Arguments Null {A}.
Arguments Present {A} a.

(** A module has a [type], a [rawRequest] and, when it is a concatenation, a
    [rootModule].  [type] and [rawRequest] are strings when present; an
    absent one ([None]) is [undefined] or [null], which the [switch] and the
    truth test treat alike. *)
#[warnings="-register-all"] Inductive Module : Type :=
  Build_Module {
    type : option string;
    rawRequest : option string;
    rootModule : slot Module;
  }.

Record Chunk : Type := { entryModule : slot Module }.

Record PathData : Type := { chunk : slot Chunk }.

(** [get( data, [ 'chunk', 'entryModule' ], {} )]: the walk stops at a
    [chunk] that is [undefined] or [null]; the default [{}] replaces a result
    that is [undefined], and only that: a [null] entry module is returned as
    it is ([None] here). *)
Definition get_entryModule (data : PathData) : option Module :=
  let empty := {| type := None; rawRequest := None; rootModule := Undefined |} in
  match chunk data with
  | Present c =>
      match entryModule c with
      | Present m => Some m
      | Null => None
      | Undefined => Some empty
      end
  | Undefined | Null => Some empty
  end.

(** The [switch]: the request of the module itself, of its root module
    (reading a property of an absent root module is a TypeError), or nothing. *)
Definition select_rawRequest (entryModule : Module) : completion (option string) :=
  match type entryModule with
  | Some t =>
      if String.eqb t "javascript/auto" then Return (rawRequest entryModule)
      else if String.eqb t "javascript/esm" then
        match rootModule entryModule with
        | Present root => Return (rawRequest root)
        | Undefined =>
            Throw "TypeError: Cannot read property 'rawRequest' of undefined"
        | Null => Throw "TypeError: Cannot read property 'rawRequest' of null"
        end
      else Return None
  | None => Return None
  end.

(** The callback; [basename] is [require( 'path' ).basename].  Reading
    [entryModule.type] of [null] is a TypeError. *)
Definition templated_basename (basename : string -> string) (path : string)
  (data : PathData) : completion string :=
  match get_entryModule data with
  | None => Throw "TypeError: Cannot read property 'type' of null"
  | Some entryModule =>
      match select_rawRequest entryModule with
      | Throw e => Throw e
      | Return (Some request) =>
          if String.eqb request "" then Return path else Return (basename request)
      | Return None => Return path
      end
  end.

(** ** Further fixtures *)

(** The last path segment, for paths without a trailing slash. *)
Definition last_segment (path : string) : string :=
  List.last (Posix.split path) "".

(** The entry module of the package "api-fetch". *)
Definition api_fetch_module : Module :=
  {| type := Some "javascript/auto";
     rawRequest := Some "/repo/node_modules/@wordpress/api-fetch";
     rootModule := Undefined |}.

(** A concatenated module that lost its root. *)
Definition rootless_module : Module :=
  {| type := Some "javascript/esm";
     rawRequest := Some "/repo/node_modules/@wordpress/a11y";
     rootModule := Undefined |}.

Definition data_of (m : Module) : PathData :=
  {| chunk := Present {| entryModule := Present m |} |}.

(** A chunk whose entry module is [null]. *)
Definition null_entry : PathData :=
  {| chunk := Present {| entryModule := Null |} |}.

(** [--env.environment=test] *)
Definition test_run : Env :=
  {| environment := VString "test";
     env_watch := VBool false;
     env_buildTarget := VBool false |}.

(** * Properties *)

(** ** Characters and strings *)

Ltac each_ascii c :=
  destruct c as [[] [] [] [] [] [] [] []]; vm_compute; try reflexivity; try discriminate.

Lemma lowercase_not_dash c : lowercase c = true -> Ascii.eqb c dash = false.
Proof. each_ascii c. Qed.

Lemma toUpperCase_not_lowercase c :
  lowercase c = true -> lowercase (toUpperCase c) = false.
Proof. each_ascii c. Qed.

Lemma toUpperCase_not_dash c :
  lowercase c = true -> Ascii.eqb (toUpperCase c) dash = false.
Proof. each_ascii c. Qed.

Lemma toUpperCase_code c :
  lowercase c = true -> (nat_of_ascii (toUpperCase c) + 32 = nat_of_ascii c)%nat.
Proof. each_ascii c. Qed.

Lemma digit_not_lowercase c : digit c = true -> lowercase c = false.
Proof. each_ascii c. Qed.

Lemma digit_not_dash c : digit c = true -> Ascii.eqb c dash = false.
Proof. each_ascii c. Qed.

Lemma append_String c s t : String c s ++ t = String c (s ++ t).
Proof. reflexivity. Qed.

Lemma append_empty t : "" ++ t = t.
Proof. reflexivity. Qed.

(** ** camelCaseDash *)

Lemma camelCaseDash_step c letter rest :
  camelCaseDash (String c (String letter rest))
  = if Ascii.eqb c dash && lowercase letter
    then String (toUpperCase letter) (camelCaseDash rest)
    else String c (camelCaseDash (String letter rest)).
Proof. reflexivity. Qed.

Lemma camelCaseDash_copy c rest :
  Ascii.eqb c dash && startsLowercase rest = false ->
  camelCaseDash (String c rest) = String c (camelCaseDash rest).
Proof.
  intros H. destruct rest as [|l r]; [reflexivity|].
  rewrite camelCaseDash_step. cbn [startsLowercase] in H. rewrite H. reflexivity.
Qed.

(** Induction that follows the scan: one or two characters at a time. *)
Lemma scan_ind (P : string -> Prop) :
  P "" ->
  (forall c, P (String c "")) ->
  (forall c l r, P r -> P (String l r) -> P (String c (String l r))) ->
  forall s, P s.
Proof.
  intros H0 H1 H2 s.
  assert (P s /\ forall c, P (String c s)) as [? _]; [|assumption].
  induction s as [|a s [IHs IHc]]; split; auto.
Qed.

(** The scan of a concatenation splits at the seam unless a match straddles
    it. *)
Lemma camelCaseDash_app s t :
  endsWithDash s && startsLowercase t = false ->
  camelCaseDash (s ++ t) = camelCaseDash s ++ camelCaseDash t.
Proof.
  induction s as [|c|c l r IHr IHlr] using scan_ind; intros H.
  - reflexivity.
  - rewrite append_String, append_empty.
    rewrite (camelCaseDash_copy c t) by exact H. reflexivity.
  - rewrite !append_String, !camelCaseDash_step.
    destruct (Ascii.eqb c dash && lowercase l) eqn:E.
    + rewrite append_String. f_equal. apply IHr.
      destruct r as [|x r']; [reflexivity|exact H].
    + rewrite <- append_String, IHlr by exact H. reflexivity.
Qed.

Lemma camelCaseDash_head s :
  startsLowercase s = false -> startsLowercase (camelCaseDash s) = false.
Proof.
  destruct s as [|c [|l r]]; intros H; try assumption.
  rewrite camelCaseDash_step. destruct (Ascii.eqb c dash && lowercase l) eqn:E.
  - apply andb_true_iff in E as [_ E]. cbn. now apply toUpperCase_not_lowercase.
  - exact H.
Qed.

(** A character that is neither the dash nor the letter of a match is copied,
    whatever surrounds it. *)
Lemma camelCaseDash_other s c t :
  Ascii.eqb c dash && startsLowercase t = false ->
  endsWithDash s && lowercase c = false ->
  camelCaseDash (s ++ String c t) = camelCaseDash s ++ String c (camelCaseDash t).
Proof.
  intros Hc Hs. rewrite camelCaseDash_app by exact Hs.
  now rewrite camelCaseDash_copy.
Qed.

(** C1. In every string, each dash followed by a lowercase ASCII letter is
    replaced by that letter in upper case (32 code points lower), and every
    character that is neither such a dash nor such a letter is copied
    unchanged; camelCaseDash("api-fetch") = "apiFetch", camelCaseDash("a11y")
    = "a11y", camelCaseDash("token-list") = "tokenList"; a letter after a
    digit stays as it is; a trailing dash and a dash before anything but a
    lowercase letter stay in place. *)
Theorem camelCaseDash_replaces_dash_letter :
  (forall s letter t, lowercase letter = true ->
     camelCaseDash (s ++ String dash (String letter t))
     = camelCaseDash s ++ String (toUpperCase letter) (camelCaseDash t)
     /\ (nat_of_ascii (toUpperCase letter) + 32 = nat_of_ascii letter)%nat)
  /\ (forall s c t,
        Ascii.eqb c dash && startsLowercase t = false ->
        endsWithDash s && lowercase c = false ->
        camelCaseDash (s ++ String c t)
        = camelCaseDash s ++ String c (camelCaseDash t))
  /\ camelCaseDash "api-fetch" = "apiFetch"
  /\ camelCaseDash "a11y" = "a11y"
  /\ camelCaseDash "token-list" = "tokenList"
  /\ (forall s d letter t, digit d = true -> lowercase letter = true ->
        camelCaseDash (s ++ String d (String letter t))
        = camelCaseDash s ++ String d (String letter (camelCaseDash t)))
  /\ (forall s, camelCaseDash (s ++ "-") = camelCaseDash s ++ "-")
  /\ (forall s c t, lowercase c = false ->
        camelCaseDash (s ++ String dash (String c t))
        = camelCaseDash s ++ String dash (camelCaseDash (String c t))).
Proof.
  repeat split; try reflexivity.
  - rewrite camelCaseDash_app by (cbn; apply andb_false_r).
    rewrite camelCaseDash_step, H. reflexivity.
  - now apply toUpperCase_code.
  - apply camelCaseDash_other.
  - intros s d letter t Hd Hl.
    rewrite camelCaseDash_other.
    + rewrite camelCaseDash_copy; [reflexivity|].
      now rewrite lowercase_not_dash.
    + now rewrite digit_not_dash.
    + rewrite digit_not_lowercase by exact Hd. apply andb_false_r.
  - intros s. now rewrite camelCaseDash_app by apply andb_false_r.
  - intros s c t Hc. apply camelCaseDash_other.
    + cbn. rewrite Hc. reflexivity.
    + apply andb_false_r.
Qed.

(** The theorem at "wp-api", the match "-f" and "etch". *)
Lemma camelCaseDash_replaces_dash_letter_witness :
  lowercase "f" = true
  /\ camelCaseDash ("wp-api" ++ String dash (String "f" "etch"))
     = camelCaseDash "wp-api" ++ String (toUpperCase "f") (camelCaseDash "etch").
Proof.
  split; [reflexivity|].
  apply (proj1 camelCaseDash_replaces_dash_letter "wp-api" "f"%char "etch").
  reflexivity.
Defined.

(** C2. camelCaseDash is idempotent on every string. *)
Theorem camelCaseDash_idempotent (s : string) :
  camelCaseDash (camelCaseDash s) = camelCaseDash s.
Proof.
  induction s as [|c|c l r IHr IHlr] using scan_ind; try reflexivity.
  rewrite camelCaseDash_step. destruct (Ascii.eqb c dash && lowercase l) eqn:E.
  - apply andb_true_iff in E as [_ E].
    rewrite camelCaseDash_copy, IHr; [reflexivity|].
    now rewrite toUpperCase_not_dash.
  - rewrite camelCaseDash_copy, IHlr; [reflexivity|].
    apply andb_false_iff in E as [E|E]; [now rewrite E|].
    rewrite camelCaseDash_head; [apply andb_false_r|exact E].
Qed.

(** ** The package list *)

Lemma prefix_append p s : String.prefix p (p ++ s) = true.
Proof.
  induction p as [|c p IH]; [now destruct s|].
  rewrite append_String. cbn. rewrite IH. now destruct (ascii_dec c c).
Qed.

Lemma skip_append p s : skip (String.length p) (p ++ s) = s.
Proof. induction p as [|c p IH]; [reflexivity|exact IH]. Qed.

Lemma prefix_skip p s :
  String.prefix p s = true -> s = p ++ skip (String.length p) s.
Proof.
  revert s. induction p as [|c p IH]; intros s H; [reflexivity|].
  destruct s as [|d s]; [discriminate|]. cbn in H.
  destruct (ascii_dec c d) as [->|]; [|discriminate].
  rewrite append_String. cbn [String.length skip]. f_equal. now apply IH.
Qed.

Lemma startsWith_iff s p :
  startsWith s p = true <-> exists rest, s = p ++ rest.
Proof.
  unfold startsWith. split.
  - intros H. eexists. now apply prefix_skip.
  - intros [rest ->]. apply prefix_append.
Qed.

Lemma replace_at_start s p r :
  String.prefix p s = true -> replace s p r = r ++ skip (String.length p) s.
Proof. intros H. destruct s; cbn [replace]; now rewrite H. Qed.

Lemma replace_namespace name :
  replace (WORDPRESS_NAMESPACE ++ name) WORDPRESS_NAMESPACE "" = name.
Proof.
  rewrite replace_at_start by apply prefix_append.
  rewrite append_empty. apply skip_append.
Qed.

Lemma filter_sublist {A : Type} (f : A -> bool) (l : list A) :
  sublist (List.filter f l) l.
Proof.
  induction l as [|a l IH]; cbn; [constructor|].
  destruct (f a); now constructor.
Qed.

(** C3. For every dependency mapping: putting the prefix back on the derived
    names gives exactly the keys that start with "@wordpress/", in the order
    of the mapping (a subsequence of its keys); a name is in the list if and
    only if the prefixed name is a key; a key passes the test if and only if
    it is the prefix followed by something; the list is empty when no key
    matches. *)
Theorem packages_are_prefixed_keys (dependencies : object string) :
  map (String.append WORDPRESS_NAMESPACE) (packages dependencies)
  = List.filter (fun key => startsWith key WORDPRESS_NAMESPACE)
      (Object_keys dependencies)
  /\ sublist (map (String.append WORDPRESS_NAMESPACE) (packages dependencies))
       (Object_keys dependencies)
  /\ (forall name,
        In name (packages dependencies)
        <-> In (WORDPRESS_NAMESPACE ++ name) (Object_keys dependencies))
  /\ (forall key,
        startsWith key WORDPRESS_NAMESPACE = true
        <-> exists name, key = WORDPRESS_NAMESPACE ++ name)
  /\ ((forall key, In key (Object_keys dependencies) ->
         startsWith key WORDPRESS_NAMESPACE = false) ->
      packages dependencies = []).
Proof.
  assert (Hmap : map (String.append WORDPRESS_NAMESPACE) (packages dependencies)
                 = List.filter (fun key => startsWith key WORDPRESS_NAMESPACE)
                     (Object_keys dependencies)).
  { unfold packages. induction (Object_keys dependencies) as [|key keys IH];
      [reflexivity|].
    cbn [List.filter]. destruct (startsWith key WORDPRESS_NAMESPACE) eqn:E;
      [|exact IH].
    cbn [map]. rewrite IH. f_equal.
    apply startsWith_iff in E as [rest ->]. now rewrite replace_namespace. }
  split; [exact Hmap|]. split; [rewrite Hmap; apply filter_sublist|].
  split; [|split].
  - intros name. unfold packages. rewrite in_map_iff. split.
    + intros (key & <- & Hin). apply filter_In in Hin as [Hin Hp].
      apply startsWith_iff in Hp as [rest ->].
      now rewrite replace_namespace.
    + intros Hin. exists (WORDPRESS_NAMESPACE ++ name).
      split; [apply replace_namespace|].
      apply filter_In. split; [exact Hin|]. apply prefix_append.
  - intros key. apply startsWith_iff.
  - clear Hmap. unfold packages.
    induction (Object_keys dependencies) as [|key keys IH]; intros Hnone;
      [reflexivity|].
    cbn [List.filter]. rewrite Hnone by now left.
    apply IH. intros k Hk. apply Hnone. now right.
Qed.

(** The theorem at the fixture manifest: "lodash" is dropped, the order of
    the two WordPress packages is kept. *)
Lemma packages_are_prefixed_keys_witness :
  packages manifest = [ "a11y"; "api-fetch" ]
  /\ In "api-fetch" (packages manifest).
Proof.
  split; [reflexivity|].
  apply (proj1 (proj2 (proj2 (packages_are_prefixed_keys manifest)))).
  vm_compute. right. right. left. reflexivity.
Defined.

(** ** The build target *)

Lemma strict_eq_iff v literal : strict_eq v literal = true <-> v = VString literal.
Proof.
  destruct v as [|b|s]; cbn; try (split; discriminate).
  rewrite String.eqb_eq. split; [now intros ->|now intros [= ->]].
Qed.

Lemma strict_eq_false v literal :
  v <> VString literal -> strict_eq v literal = false.
Proof.
  intros H. destruct (strict_eq v literal) eqn:E; [|reflexivity].
  now apply strict_eq_iff in E.
Qed.

Lemma get_own {V : Type} (o : object V) k v :
  NoDup (Object_keys o) -> In (k, v) o -> get o k = Some v.
Proof.
  induction o as [|[k' v'] o IH]; intros Hnd Hin; [destruct Hin|].
  cbn in Hnd. apply NoDup_cons in Hnd as [Hk Hnd].
  cbn [get]. destruct Hin as [[= -> ->]|Hin].
  - now rewrite String.eqb_refl.
  - destruct (String.eqb k' k) eqn:E; [|now apply IH].
    apply String.eqb_eq in E as ->. exfalso. apply Hk.
    apply list_elem_of_In. change k with (fst (k, v)). now apply in_map.
Qed.

Section Properties.

Context {host : Host}.

(** C4, as the code has it.  Whatever the options object: a truthy
    override (a non-empty string) is the root; with an absent, false or
    empty override the root is "build" when the mode is the string
    "production" and "src" for any other mode, an absent one included;
    "/wp-includes" is appended in every case.  The defaults are those of a
    call without argument: such a call is a call with environment
    "production", watch false and override false. *)
Theorem buildTarget_effective (env : Env) :
  (truthy (env_buildTarget env) = true ->
     buildTarget env = ToString (env_buildTarget env) ++ "/wp-includes")
  /\ (forall override, override <> "" ->
        env_buildTarget env = VString override ->
        buildTarget env = override ++ "/wp-includes")
  /\ (truthy (env_buildTarget env) = false ->
        environment env = VString "production" ->
        buildTarget env = "build/wp-includes")
  /\ (truthy (env_buildTarget env) = false ->
        environment env <> VString "production" ->
        buildTarget env = "src/wp-includes")
  /\ (exists root, buildTarget env = root ++ "/wp-includes")
  /\ module_exports None = module_exports (Some default_env)
  /\ default_env
     = {| environment := VString "production";
          env_watch := VBool false;
          env_buildTarget := VBool false |}
  /\ buildTarget default_env = "build/wp-includes".
Proof.
  unfold buildTarget. repeat split.
  - intros ->. reflexivity.
  - intros override Hne ->. cbn.
    apply String.eqb_neq in Hne. now rewrite Hne.
  - intros -> ->. reflexivity.
  - intros -> Hmode. now rewrite strict_eq_false.
  - eexists. reflexivity.
Qed.

(** ** Vendor copies *)

(** C5. For a vendor map (its keys distinct, as an object's are) and a build
    target, the copy list is the list of the map's entries in key order,
    each turned into: source [join( baseDir, "node_modules/" + path )],
    destination [join( baseDir, buildTarget + "/js/dist/vendor/" + filename )],
    no transform; for {"x.js": "pkg/x.js"} and "build/wp-includes" the one
    destination is [join( baseDir, "build/wp-includes/js/dist/vendor/x.js" )]. *)
Theorem mapVendorCopies_per_entry (vendors : object string) (buildTarget : string) :
  (NoDup (Object_keys vendors) ->
   mapVendorCopies vendors buildTarget
   = map (fun '(filename, relative) =>
            {| from := join baseDir ("node_modules/" ++ relative);
               to := join baseDir (buildTarget ++ "/js/dist/vendor/" ++ filename);
               test := None;
               flatten := false;
               transform := None;
               transformPath := None |})
       vendors)
  /\ List.length (mapVendorCopies vendors buildTarget) = List.length vendors
  /\ map to (mapVendorCopies [ ("x.js", "pkg/x.js") ] "build/wp-includes")
     = [ join baseDir "build/wp-includes/js/dist/vendor/x.js" ].
Proof.
  split; [|split].
  - intros Hnd. unfold mapVendorCopies, Object_keys. rewrite map_map.
    apply map_ext_in. intros [filename relative] Hin.
    cbn [fst]. rewrite (get_own vendors filename relative Hnd Hin).
    reflexivity.
  - unfold mapVendorCopies, Object_keys. now rewrite !length_map.
  - reflexivity.
Qed.

(** C6. In mode "development" the vendor copy list is the copy list of the
    unminified table: nine copies, in table order, each from the module file
    to the vendor file name under the build target, none with a transform.
    In any other mode it is the six copies of the pre-minified table, without
    transform, followed by the three copies of the needs-minification table,
    each with the transform that hands the text of the content to the
    minifier and returns the [code] of its output, nothing else. *)
Theorem vendorCopies_by_mode (mode : value) (buildTarget : string) :
  (mode = VString "development" ->
     vendorCopies mode buildTarget = mapVendorCopies vendors buildTarget
     /\ vendorCopies mode buildTarget
        = map (fun '(relative, filename) =>
                 {| from := join baseDir ("node_modules/" ++ relative);
                    to := join baseDir (buildTarget ++ "/js/dist/vendor/" ++ filename);
                    test := None;
                    flatten := false;
                    transform := None;
                    transformPath := None |})
            [ ("lodash/lodash.js", "lodash.js");
              ("@babel/polyfill/dist/polyfill.js", "wp-polyfill.js");
              ("whatwg-fetch/dist/fetch.umd.js", "wp-polyfill-fetch.js");
              ("element-closest/element-closest.js",
                 "wp-polyfill-element-closest.js");
              ("polyfill-library/polyfills/Node/prototype/contains/polyfill.js",
                 "wp-polyfill-node-contains.js");
              ("formdata-polyfill/FormData.js", "wp-polyfill-formdata.js");
              ("moment/moment.js", "moment.js");
              ("react/umd/react.development.js", "react.js");
              ("react-dom/umd/react-dom.development.js", "react-dom.js") ]
     /\ Forall (fun c => transform c = None) (vendorCopies mode buildTarget))
  /\ (mode <> VString "development" ->
        vendorCopies mode buildTarget
        = (mapVendorCopies minifiedVendors buildTarget
             ++ minifyCopies buildTarget)%list
        /\ vendorCopies mode buildTarget
           = (map (fun '(relative, filename) =>
                     {| from := join baseDir ("node_modules/" ++ relative);
                        to := join baseDir
                                (buildTarget ++ "/js/dist/vendor/" ++ filename);
                        test := None;
                        flatten := false;
                        transform := None;
                        transformPath := None |})
                [ ("lodash/lodash.min.js", "lodash.min.js");
                  ("@babel/polyfill/dist/polyfill.min.js", "wp-polyfill.min.js");
                  ("formdata-polyfill/formdata.min.js",
                     "wp-polyfill-formdata.min.js");
                  ("moment/min/moment.min.js", "moment.min.js");
                  ("react/umd/react.production.min.js", "react.min.js");
                  ("react-dom/umd/react-dom.production.min.js",
                     "react-dom.min.js") ]
                ++ map (fun '(relative, filename) =>
                          {| from := join baseDir ("node_modules/" ++ relative);
                             to := join baseDir
                                     (buildTarget ++ "/js/dist/vendor/" ++ filename);
                             test := None;
                             flatten := false;
                             transform := Some minify_transform;
                             transformPath := None |})
                     [ ("whatwg-fetch/dist/fetch.umd.js",
                          "wp-polyfill-fetch.min.js");
                       ("element-closest/element-closest.js",
                          "wp-polyfill-element-closest.min.js");
                       ("polyfill-library/polyfills/Node/prototype/contains/polyfill.js",
                          "wp-polyfill-node-contains.min.js") ])%list
        /\ (forall input,
              minify_transform input
              = match UglifyJS_minify (Buffer_toString input) with
                | Return minified => Return (Code (code minified))
                | Throw e => Throw e
                end)
        /\ Forall (fun c => transform c = None)
             (mapVendorCopies minifiedVendors buildTarget)
        /\ map from (minifyCopies buildTarget)
           = map from (mapVendorCopies minifyVendors buildTarget)
        /\ map to (minifyCopies buildTarget)
           = map to (mapVendorCopies minifyVendors buildTarget)
        /\ Forall
             (fun c =>
                exists t, transform c = Some t
                  /\ forall input,
                       t input
                       = match UglifyJS_minify (Buffer_toString input) with
                         | Return minified => Return (Code (code minified))
                         | Throw e => Throw e
                         end)
             (minifyCopies buildTarget)).
Proof.
  assert (Hnone : forall table,
             Forall (fun c => transform c = None)
               (mapVendorCopies table buildTarget)).
  { intros table. apply List.Forall_forall. intros c Hin.
    apply in_map_iff in Hin as (filename & <- & _). reflexivity. }
  split.
  - intros ->. split; [reflexivity|]. split; [reflexivity|]. apply Hnone.
  - intros Hmode. unfold vendorCopies. rewrite strict_eq_false by exact Hmode.
    split; [reflexivity|]. split; [reflexivity|]. split; [reflexivity|].
    split; [apply Hnone|].
    unfold minifyCopies. rewrite !map_map. split; [reflexivity|].
    split; [reflexivity|].
    apply List.Forall_forall. intros c Hin.
    apply in_map_iff in Hin as (command & <- & _).
    exists minify_transform. split; reflexivity.
Qed.

(** ** Stylesheet copies *)

Lemma length_append s t :
  String.length (s ++ t) = (String.length s + String.length t)%nat.
Proof. induction s as [|c s IH]; [reflexivity|]. cbn. now rewrite <- IH. Qed.



(** C8, as the code has it.  There are three needs-minification copies and
    each has a transform without any handler, fixed by what the minifier
    does: what the minifier throws, the transform throws; when the minifier
    returns an output, the transform returns the [code] of that output; so
    when the minifier reports a failure by returning an output without
    [code], the transform returns the absent [code] and raises nothing. *)
Theorem minify_transform_propagates (buildTarget : string) :
  List.length (minifyCopies buildTarget) = 3%nat
  /\ forall c, In c (minifyCopies buildTarget) ->
       exists t,
         transform c = Some t
         /\ forall input,
              (forall e, UglifyJS_minify (Buffer_toString input) = Throw e ->
                 t input = Throw e)
              /\ (forall minified,
                    UglifyJS_minify (Buffer_toString input) = Return minified ->
                    t input = Return (Code (code minified)))
              /\ (forall minified,
                    UglifyJS_minify (Buffer_toString input) = Return minified ->
                    code minified = None ->
                    t input = Return (Code None)
                    /\ forall e, t input <> Throw e)
              /\ (forall out, t input = Return out ->
                    exists minified,
                      UglifyJS_minify (Buffer_toString input) = Return minified
                      /\ out = Code (code minified)).
Proof.
  split; [reflexivity|]. intros c Hin.
  apply in_map_iff in Hin as (command & <- & _).
  exists minify_transform. split; [reflexivity|].
  intros input. unfold minify_transform.
  destruct (UglifyJS_minify (Buffer_toString input)) as [minified|e'].
  - split; [discriminate|]. split; [now intros m [= <-]|].
    split; [|intros out [= <-]; now exists minified].
    intros m [= <-] ->. split; [reflexivity|discriminate].
  - split; [now intros e [= ->]|]. repeat split; discriminate.
Qed.

(** ** The entry map *)

Local Abbreviation moduleRoot packageName :=
  (join baseDir ("node_modules/@wordpress/" ++ packageName)).

Lemma entry_of_snoc packages packageName :
  entry_of (packages ++ [ packageName ])
  = assign (entry_of packages) (camelCaseDash packageName)
      (moduleRoot packageName).
Proof. unfold entry_of. now rewrite fold_left_app. Qed.

Lemma entry_of_proto packages : entry_of packages !! "__proto__" = None.
Proof.
  induction packages as [|p packages IH] using rev_ind; [reflexivity|].
  rewrite entry_of_snoc. unfold assign.
  destruct (String.eqb (camelCaseDash p) "__proto__") eqn:E; [exact IH|].
  apply String.eqb_neq in E. now rewrite lookup_insert_ne.
Qed.

(** The last package with a given camel-case name wins. *)
Lemma entry_of_lookup packages key :
  key <> "__proto__" ->
  entry_of packages !! key
  = option_map (fun p => moduleRoot p)
      (List.find (fun p => String.eqb (camelCaseDash p) key) (rev packages)).
Proof.
  intros Hkey.
  induction packages as [|p packages IH] using rev_ind; [reflexivity|].
  rewrite entry_of_snoc, rev_unit. cbn [List.find]. unfold assign.
  destruct (String.eqb (camelCaseDash p) key) eqn:E.
  - apply String.eqb_eq in E. subst key.
    apply String.eqb_neq in Hkey. rewrite Hkey.
    now rewrite lookup_insert_eq.
  - apply String.eqb_neq in E.
    destruct (String.eqb (camelCaseDash p) "__proto__"); [exact IH|].
    now rewrite lookup_insert_ne.
Qed.

Lemma entry_of_fresh packages key :
  (forall p, In p packages -> camelCaseDash p <> key) ->
  entry_of packages !! key = None.
Proof.
  intros Hfresh. destruct (String.eqb key "__proto__") eqn:E.
  - apply String.eqb_eq in E as ->. apply entry_of_proto.
  - apply String.eqb_neq in E. rewrite entry_of_lookup by exact E.
    destruct (List.find _ _) as [q|] eqn:F; [|reflexivity].
    apply find_some in F as [Hin Hq]. apply String.eqb_eq in Hq.
    apply in_rev in Hin. now apply Hfresh in Hin.
Qed.

(** C9, as the code has it.  The keys of the entry map are the camel-case
    names of the packages, "__proto__" excepted; a key is mapped to the
    module root of the last package with that camel-case name.  When no two
    different packages of the sequence share a camel-case name, every
    package whose camel-case name is not "__proto__" has its own key, mapped
    to its own module root, and a sequence of distinct such packages gives
    as many keys as packages.  ["a11y", "api-fetch"] gives "a11y" and
    "apiFetch", each with its module root. *)
Theorem entry_of_camelCase_keys (packages : list string) :
  (forall key,
     is_Some (entry_of packages !! key)
     <-> key <> "__proto__"
         /\ exists p, In p packages /\ camelCaseDash p = key)
  /\ (forall key, key <> "__proto__" ->
        entry_of packages !! key
        = option_map (fun p => moduleRoot p)
            (List.find (fun p => String.eqb (camelCaseDash p) key)
               (rev packages)))
  /\ ((forall p q, In p packages -> In q packages ->
         camelCaseDash p = camelCaseDash q -> p = q) ->
      (forall p, In p packages -> camelCaseDash p <> "__proto__") ->
      (forall p, In p packages ->
         entry_of packages !! camelCaseDash p = Some (moduleRoot p))
      /\ (NoDup packages -> size (entry_of packages) = List.length packages))
  /\ entry_of [ "a11y"; "api-fetch" ]
     = <[ "apiFetch" := moduleRoot "api-fetch" ]>
         (<[ "a11y" := moduleRoot "a11y" ]> ∅).
Proof.
  split; [|split; [|split]].
  - intros key. split.
    + intros Hsome. assert (Hkey : key <> "__proto__").
      { intros ->. rewrite entry_of_proto in Hsome. now destruct Hsome. }
      split; [exact Hkey|]. rewrite entry_of_lookup in Hsome by exact Hkey.
      destruct (List.find _ _) as [q|] eqn:F; [|now destruct Hsome].
      apply find_some in F as [Hin Hq]. apply String.eqb_eq in Hq.
      exists q. split; [now apply in_rev|exact Hq].
    + intros (Hkey & p & Hin & Hp). rewrite entry_of_lookup by exact Hkey.
      destruct (List.find _ _) as [q|] eqn:F; [now eexists|].
      apply in_rev in Hin. apply (find_none _ _ F) in Hin.
      apply String.eqb_neq in Hin. contradiction.
  - apply entry_of_lookup.
  - intros Hinj Hproto. split.
    + intros p Hin. rewrite entry_of_lookup by now apply Hproto.
      destruct (List.find _ _) as [q|] eqn:F.
      * apply find_some in F as [Hq Heq]. apply String.eqb_eq in Heq.
        apply in_rev in Hq. now rewrite (Hinj q p Hq Hin Heq).
      * apply in_rev in Hin. apply (find_none _ _ F) in Hin.
        now rewrite String.eqb_refl in Hin.
    + induction packages as [|p packages IH] using rev_ind;
        intros Hnd; [reflexivity|].
      apply NoDup_app in Hnd as (Hnd & Hp & _).
      rewrite entry_of_snoc, length_app, Nat.add_1_r. unfold assign.
      assert (Hne : camelCaseDash p <> "__proto__").
      { apply Hproto, in_or_app. right. now left. }
      apply String.eqb_neq in Hne. rewrite Hne.
      rewrite map_size_insert_None.
      * f_equal. apply IH; [| |exact Hnd].
        -- intros a b Ha Hb. apply Hinj; apply in_or_app; now left.
        -- intros a Ha. apply Hproto, in_or_app. now left.
      * apply entry_of_fresh. intros q Hq Heq.
        assert (q = p) as ->.
        { apply Hinj; [apply in_or_app; now left
                      |apply in_or_app; right; now left|exact Heq]. }
        apply (Hp p); [now apply list_elem_of_In|constructor].
  - reflexivity.
Qed.

(** ** The returned configuration *)

(** C10. For a call whose mode is "development": when the override is
    exactly "build/", the returned mode is "production", minimisation is
    off, there is no devtool and the plugin list is the literal one, without
    a live-reload plugin; for any other override the mode stays
    "development", one live-reload plugin is appended to the literal list,
    and the devtool is SOURCEMAP when that variable is set and not empty,
    "source-map" otherwise. *)
Theorem module_exports_development (env : Env) :
  environment env = VString "development" ->
  (env_buildTarget env = VString "build/" ->
     mode (module_exports (Some env)) = VString "production"
     /\ optimization (module_exports (Some env)) = Some false
     /\ devtool (module_exports (Some env)) = None
     /\ plugins (module_exports (Some env)) = plugins (config_literal env)
     /\ existsb isLiveReload (plugins (module_exports (Some env))) = false)
  /\ (env_buildTarget env <> VString "build/" ->
        mode (module_exports (Some env)) = VString "development"
        /\ optimization (module_exports (Some env)) = None
        /\ (exists port,
              plugins (module_exports (Some env))
              = (plugins (config_literal env) ++ [ LiveReloadPlugin port ])%list)
        /\ existsb isLiveReload (plugins (module_exports (Some env))) = true
        /\ devtool (module_exports (Some env))
           = Some (env_or (process_env "SOURCEMAP") "source-map")
        /\ (forall style, process_env "SOURCEMAP" = Some style ->
              style <> "" ->
              devtool (module_exports (Some env)) = Some style)
        /\ (process_env "SOURCEMAP" = None
            \/ process_env "SOURCEMAP" = Some "" ->
            devtool (module_exports (Some env)) = Some "source-map")).
Proof.
  intros Hmode. unfold module_exports, set_devtool.
  cbn [config_literal mode]. rewrite Hmode. cbn [strict_eq String.eqb negb].
  unfold build_override. rewrite Hmode.
  change (strict_eq (VString "development") "development") with true.
  cbn [andb]. split.
  - intros ->. cbn. repeat split; reflexivity.
  - intros Hother. rewrite strict_eq_false by exact Hother.
    unfold add_live_reload. cbn [mode plugins devtool optimization].
    change (strict_eq (VString "development") "development") with true.
    cbv iota. cbn [mode plugins devtool optimization].
    split; [reflexivity|]. split; [reflexivity|].
    split; [eexists; reflexivity|]. split; [reflexivity|].
    split; [reflexivity|]. split.
    + intros style -> Hne. cbn. apply String.eqb_neq in Hne.
      now rewrite Hne.
    + intros [->| ->]; reflexivity.
Qed.

End Properties.

(** * The configuration on the fixtures *)

(** C4 fails as stated: an options object that only sets [watch] has no
    environment, and the build target is then derived as for a mode other
    than "production", not from a default "production"; an override given as
    the empty string is not used either. *)
Lemma buildTarget_without_environment :
  environment watch_only = VUndefined
  /\ buildTarget watch_only = "src/wp-includes"
  /\ buildTarget watch_only <> "build/wp-includes"
  /\ mode (@module_exports posix_host (Some watch_only)) = VUndefined
  /\ env_buildTarget empty_override = VString ""
  /\ buildTarget empty_override = "src/wp-includes"
  /\ buildTarget empty_override <> "" ++ "/wp-includes".
Proof. repeat split; try reflexivity; discriminate. Qed.

Lemma buildTarget_effective_witness :
  truthy (env_buildTarget development_build) = true
  /\ buildTarget development_build = "build/" ++ "/wp-includes".
Proof.
  split; [reflexivity|].
  apply (proj1 (@buildTarget_effective posix_host development_build)).
  reflexivity.
Defined.

Lemma mapVendorCopies_per_entry_witness :
  NoDup (Object_keys [ ("x.js", "pkg/x.js") ])
  /\ map (fun c => (from c, to c))
       (@mapVendorCopies posix_host [ ("x.js", "pkg/x.js") ] "build/wp-includes")
     = [ ("/repo/node_modules/pkg/x.js",
          "/repo/build/wp-includes/js/dist/vendor/x.js") ].
Proof.
  assert (Hnd : NoDup (Object_keys [ ("x.js", "pkg/x.js") ]))
    by apply NoDup_singleton.
  split; [exact Hnd|].
  rewrite (proj1 (@mapVendorCopies_per_entry posix_host
                    [ ("x.js", "pkg/x.js") ] "build/wp-includes") Hnd).
  reflexivity.
Defined.

Lemma vendorCopies_by_mode_witness :
  map to (@vendorCopies posix_host (VString "development") "src/wp-includes")
  = [ "/repo/src/wp-includes/js/dist/vendor/lodash.js";
      "/repo/src/wp-includes/js/dist/vendor/wp-polyfill.js";
      "/repo/src/wp-includes/js/dist/vendor/wp-polyfill-fetch.js";
      "/repo/src/wp-includes/js/dist/vendor/wp-polyfill-element-closest.js";
      "/repo/src/wp-includes/js/dist/vendor/wp-polyfill-node-contains.js";
      "/repo/src/wp-includes/js/dist/vendor/wp-polyfill-formdata.js";
      "/repo/src/wp-includes/js/dist/vendor/moment.js";
      "/repo/src/wp-includes/js/dist/vendor/react.js";
      "/repo/src/wp-includes/js/dist/vendor/react-dom.js" ]
  /\ map (fun c => (to c, option_map (fun t => t []) (transform c)))
       (@vendorCopies posix_host (VString "production") "build/wp-includes")
     = [ ("/repo/build/wp-includes/js/dist/vendor/lodash.min.js", None);
         ("/repo/build/wp-includes/js/dist/vendor/wp-polyfill.min.js", None);
         ("/repo/build/wp-includes/js/dist/vendor/wp-polyfill-formdata.min.js",
            None);
         ("/repo/build/wp-includes/js/dist/vendor/moment.min.js", None);
         ("/repo/build/wp-includes/js/dist/vendor/react.min.js", None);
         ("/repo/build/wp-includes/js/dist/vendor/react-dom.min.js", None);
         ("/repo/build/wp-includes/js/dist/vendor/wp-polyfill-fetch.min.js",
            Some (Return (Code (Some ""))));
         ("/repo/build/wp-includes/js/dist/vendor/wp-polyfill-element-closest.min.js",
            Some (Return (Code (Some ""))));
         ("/repo/build/wp-includes/js/dist/vendor/wp-polyfill-node-contains.min.js",
            Some (Return (Code (Some "")))) ].
Proof.
  split.
  - rewrite (proj1 (proj2 (proj1 (@vendorCopies_by_mode posix_host
                                    (VString "development") "src/wp-includes")
                             eq_refl))).
    reflexivity.
  - assert (Hmode : VString "production" <> VString "development")
      by discriminate.
    rewrite (proj1 (proj2 (proj2 (@vendorCopies_by_mode posix_host
                                    (VString "production") "build/wp-includes")
                             Hmode))).
    reflexivity.
Defined.


(** C8 fails as stated: on the host whose minifier reports a failure instead
    of throwing, the transform of a needs-minification copy returns, with an
    absent [code], on a source the minifier could not minify. *)
Lemma minify_transform_returns_absent_code :
  In (fetch_copy reporting_host) (@minifyCopies reporting_host "build/wp-includes")
  /\ transform (fetch_copy reporting_host) = Some (@minify_transform reporting_host)
  /\ @UglifyJS_minify reporting_host (@Buffer_toString reporting_host broken_source)
     = Return {| code := None |}
  /\ @minify_transform reporting_host broken_source = Return (Code None)
  /\ (forall e, @minify_transform reporting_host broken_source <> Throw e).
Proof.
  split; [left; reflexivity|]. repeat split; try reflexivity. discriminate.
Qed.

Lemma minify_transform_propagates_witness :
  In (fetch_copy throwing_host) (@minifyCopies throwing_host "build/wp-includes")
  /\ (exists t,
        transform (fetch_copy throwing_host) = Some t
        /\ t broken_source = Throw "SyntaxError: Unexpected token")
  /\ In (fetch_copy reporting_host)
       (@minifyCopies reporting_host "build/wp-includes")
  /\ (exists t,
        transform (fetch_copy reporting_host) = Some t
        /\ t broken_source = Return (Code None)).
Proof.
  assert (Hthrowing : In (fetch_copy throwing_host)
                        (@minifyCopies throwing_host "build/wp-includes"))
    by (left; reflexivity).
  assert (Hreporting : In (fetch_copy reporting_host)
                         (@minifyCopies reporting_host "build/wp-includes"))
    by (left; reflexivity).
  split; [exact Hthrowing|]. split; [|split; [exact Hreporting|]].
  - destruct (proj2 (@minify_transform_propagates throwing_host
                       "build/wp-includes") _ Hthrowing)
      as (t & Ht & Hall).
    exists t. split; [exact Ht|].
    apply (proj1 (Hall broken_source)). reflexivity.
  - destruct (proj2 (@minify_transform_propagates reporting_host
                       "build/wp-includes") _ Hreporting)
      as (t & Ht & Hall).
    exists t. split; [exact Ht|].
    apply (proj1 (proj2 (Hall broken_source)) {| code := None |}). reflexivity.
Defined.

(** C9 fails as stated: "a-b" and "aB" share the camel-case name "aB"; the
    entry map has one key for the two packages, and the key is mapped to the
    module root of "aB", not to that of "a-b". *)
Lemma entry_of_collision :
  camelCaseDash "a-b" = "aB"
  /\ @entry_of posix_host [ "a-b"; "aB" ] !! camelCaseDash "a-b"
     = Some "/repo/node_modules/@wordpress/aB"
  /\ @join posix_host (@baseDir posix_host) "node_modules/@wordpress/a-b"
     = "/repo/node_modules/@wordpress/a-b"
  /\ @entry_of posix_host [ "a-b"; "aB" ] !! camelCaseDash "a-b"
     <> Some (@join posix_host (@baseDir posix_host)
                "node_modules/@wordpress/a-b")
  /\ size (@entry_of posix_host [ "a-b"; "aB" ]) = 1%nat.
Proof.
  split; [reflexivity|]. split; [vm_compute; reflexivity|].
  split; [vm_compute; reflexivity|]. split; [|vm_compute; reflexivity].
  vm_compute. discriminate.
Qed.

Lemma entry_of_camelCase_keys_witness :
  @entry_of posix_host [ "a11y"; "api-fetch" ] !! camelCaseDash "api-fetch"
  = Some (@join posix_host (@baseDir posix_host)
            ("node_modules/@wordpress/" ++ "api-fetch")).
Proof.
  apply (proj1 (proj2 (proj2 (@entry_of_camelCase_keys posix_host
                                [ "a11y"; "api-fetch" ])))).
  - intros p q [<-|[<-|[]]] [<-|[<-|[]]]; vm_compute;
      try reflexivity; discriminate.
  - intros p [<-|[<-|[]]]; vm_compute; discriminate.
  - right. left. reflexivity.
Defined.

Lemma module_exports_development_witness :
  environment development_build = VString "development"
  /\ mode (@module_exports posix_host (Some development_build))
     = VString "production"
  /\ existsb isLiveReload
       (plugins (@module_exports posix_host (Some development_watch)))
     = true.
Proof.
  split; [reflexivity|]. split.
  - apply (proj1 (@module_exports_development posix_host
                    development_build eq_refl)).
    reflexivity.
  - apply (proj2 (@module_exports_development posix_host
                    development_watch eq_refl)).
    discriminate.
Defined.

(** * Further properties *)

(** ** Shape of the output of camelCaseDash *)

Lemma hasDashLetter_String c rest :
  hasDashLetter (String c rest)
  = (Ascii.eqb c dash && startsLowercase rest) || hasDashLetter rest.
Proof. reflexivity. Qed.

Lemma hasDashLetter_camelCaseDash s : hasDashLetter (camelCaseDash s) = false.
Proof.
  induction s as [|c|c l r IHr IHlr] using scan_ind; [reflexivity| |].
  - cbn. now rewrite andb_false_r.
  - rewrite camelCaseDash_step. destruct (Ascii.eqb c dash && lowercase l) eqn:E.
    + apply andb_true_iff in E as [_ E].
      rewrite hasDashLetter_String, IHr, toUpperCase_not_dash by exact E.
      reflexivity.
    + rewrite hasDashLetter_String, IHlr, orb_false_r.
      apply andb_false_iff in E as [E|E]; [now rewrite E|].
      rewrite camelCaseDash_head; [apply andb_false_r|exact E].
Qed.

(** X1. The output of camelCaseDash never has a dash directly before a
    lowercase letter: nothing is left for the regular expression to match. *)
Theorem camelCaseDash_leaves_no_match (s : string) :
  hasDashLetter (camelCaseDash s) = false.
Proof. apply hasDashLetter_camelCaseDash. Qed.

Lemma camelCaseDash_without_match s :
  hasDashLetter s = false -> camelCaseDash s = s.
Proof.
  induction s as [|c rest IH]; [reflexivity|].
  rewrite hasDashLetter_String. intros H.
  apply orb_false_iff in H as [Hhead Hrest].
  rewrite camelCaseDash_copy by exact Hhead. now rewrite IH.
Qed.

(** X2. A string is left unchanged by camelCaseDash exactly when it has no
    dash directly before a lowercase letter. *)
Theorem camelCaseDash_unchanged_iff (s : string) :
  camelCaseDash s = s <-> hasDashLetter s = false.
Proof.
  split.
  - intros H. rewrite <- H. apply hasDashLetter_camelCaseDash.
  - apply camelCaseDash_without_match.
Qed.

Lemma camelCaseDash_unchanged_iff_witness :
  hasDashLetter "a11y" = false /\ camelCaseDash "a11y" = "a11y".
Proof.
  split; [reflexivity|].
  apply (proj2 (camelCaseDash_unchanged_iff "a11y")). reflexivity.
Defined.

Lemma camelCaseDash_length_le s :
  (String.length (camelCaseDash s) <= String.length s)%nat
  /\ (hasDashLetter s = true ->
      (String.length (camelCaseDash s) < String.length s)%nat).
Proof.
  induction s as [|c|c l r [IHr _] [IHlr IHlr']] using scan_ind.
  - split; [reflexivity|discriminate].
  - split; [reflexivity|]. cbn. rewrite andb_false_r. discriminate.
  - rewrite camelCaseDash_step, hasDashLetter_String.
    change (startsLowercase (String l r)) with (lowercase l).
    destruct (Ascii.eqb c dash && lowercase l) eqn:E.
    + cbn [String.length]. split; [lia|]. intros _. lia.
    + cbn [String.length orb] in *. split; [lia|]. intros H.
      specialize (IHlr' H). lia.
Qed.

(** X3. camelCaseDash never lengthens a string, and the length is kept
    exactly when nothing matched. *)
Theorem camelCaseDash_length (s : string) :
  (String.length (camelCaseDash s) <= String.length s)%nat
  /\ (String.length (camelCaseDash s) = String.length s
      <-> hasDashLetter s = false).
Proof.
  destruct (camelCaseDash_length_le s) as [Hle Hlt]. split; [exact Hle|]. split.
  - intros Heq. destruct (hasDashLetter s); [|reflexivity].
    specialize (Hlt eq_refl). lia.
  - intros H. now rewrite camelCaseDash_without_match.
Qed.

Lemma camelCaseDash_length_witness :
  hasDashLetter "shortcode" = false
  /\ String.length (camelCaseDash "shortcode") = String.length "shortcode".
Proof.
  split; [reflexivity|].
  apply (proj2 (proj2 (camelCaseDash_length "shortcode"))). reflexivity.
Defined.

(** ** Names without uppercase letters *)

Lemma lowercase_round_trip c :
  lowercase c = true ->
  uppercase (toUpperCase c) = true
  /\ ascii_of_nat (nat_of_ascii (toUpperCase c) + 32) = c.
Proof. each_ascii c; split; reflexivity. Qed.

Lemma hasUppercase_String c rest :
  hasUppercase (String c rest) = uppercase c || hasUppercase rest.
Proof. reflexivity. Qed.

Lemma hasUppercase_append s t :
  hasUppercase (s ++ t) = hasUppercase s || hasUppercase t.
Proof.
  induction s as [|c s IH]; [reflexivity|].
  rewrite append_String, !hasUppercase_String, IH. apply orb_assoc.
Qed.

(** On a name without uppercase letters the dashes can be put back. *)
Lemma dashCase_camelCaseDash s :
  hasUppercase s = false -> dashCase (camelCaseDash s) = s.
Proof.
  induction s as [|c|c l r IHr IHlr] using scan_ind; [reflexivity| |].
  - cbn. rewrite orb_false_r. now intros ->.
  - rewrite !hasUppercase_String. intros H.
    apply orb_false_iff in H as [Hc H].
    assert (Hlr : hasUppercase (String l r) = false) by exact H.
    apply orb_false_iff in H as [Hl Hr].
    rewrite camelCaseDash_step. destruct (Ascii.eqb c dash && lowercase l) eqn:E.
    + apply andb_true_iff in E as [Ec El].
      apply Ascii.eqb_eq in Ec as ->.
      destruct (lowercase_round_trip l El) as [Hup Hback].
      cbn [dashCase]. rewrite Hup, Hback, IHr by exact Hr. reflexivity.
    + cbn [dashCase]. rewrite Hc, IHlr by exact Hlr. reflexivity.
Qed.

Lemma camelCaseDash_eq_inv s t :
  hasUppercase s = false -> hasUppercase t = false ->
  camelCaseDash s = camelCaseDash t -> s = t.
Proof.
  intros Hs Ht Heq.
  rewrite <- (dashCase_camelCaseDash s Hs), <- (dashCase_camelCaseDash t Ht).
  now rewrite Heq.
Qed.

(** X4. On names without uppercase ASCII letters camelCaseDash is injective:
    two different such names never get the same camel-case name. *)
Theorem camelCaseDash_injective (s t : string) :
  hasUppercase s = false -> hasUppercase t = false ->
  camelCaseDash s = camelCaseDash t -> s = t.
Proof. apply camelCaseDash_eq_inv. Qed.

Lemma camelCaseDash_injective_witness :
  hasUppercase "api-fetch" = false
  /\ camelCaseDash ("api" ++ "-fetch") = camelCaseDash "api-fetch"
  /\ "api" ++ "-fetch" = "api-fetch".
Proof.
  split; [reflexivity|]. split; [reflexivity|].
  apply (camelCaseDash_injective ("api" ++ "-fetch") "api-fetch");
    reflexivity.
Defined.

(** ** Distinct packages, distinct entries *)

Lemma packages_prefixed (dependencies : object string) :
  map (String.append WORDPRESS_NAMESPACE) (packages dependencies)
  = List.filter (fun key => startsWith key WORDPRESS_NAMESPACE)
      (Object_keys dependencies).
Proof.
  unfold packages. induction (Object_keys dependencies) as [|key keys IH];
    [reflexivity|].
  cbn [List.filter]. destruct (startsWith key WORDPRESS_NAMESPACE) eqn:E;
    [|exact IH].
  cbn [map]. rewrite IH. f_equal.
  apply startsWith_iff in E as [rest ->]. now rewrite replace_namespace.
Qed.

Lemma packages_In (dependencies : object string) name :
  In name (packages dependencies)
  <-> In (WORDPRESS_NAMESPACE ++ name) (Object_keys dependencies).
Proof.
  unfold packages. rewrite in_map_iff. split.
  - intros (key & <- & Hin). apply filter_In in Hin as [Hin Hp].
    apply startsWith_iff in Hp as [rest ->]. now rewrite replace_namespace.
  - intros Hin. exists (WORDPRESS_NAMESPACE ++ name).
    split; [apply replace_namespace|].
    apply filter_In. split; [exact Hin|]. apply prefix_append.
Qed.

Lemma filter_NoDup {A : Type} (f : A -> bool) (l : list A) :
  NoDup l -> NoDup (List.filter f l).
Proof. intros Hnd. eapply sublist_NoDup; [exact Hnd|apply filter_sublist]. Qed.

Lemma packages_NoDup (dependencies : object string) :
  NoDup (Object_keys dependencies) -> NoDup (packages dependencies).
Proof.
  intros Hnd. apply (NoDup_fmap_1 (String.append WORDPRESS_NAMESPACE)).
  change (NoDup (map (String.append WORDPRESS_NAMESPACE) (packages dependencies))).
  rewrite packages_prefixed. now apply filter_NoDup.
Qed.

(** X5. A manifest has each dependency name once, and so the package list
    has each package once: stripping the prefix never merges two names. *)
Theorem packages_distinct (dependencies : object string) :
  NoDup (Object_keys dependencies) -> NoDup (packages dependencies).
Proof. apply packages_NoDup. Qed.

Lemma packages_distinct_witness :
  NoDup (Object_keys manifest) /\ NoDup (packages manifest).
Proof.
  assert (Hnd : NoDup (Object_keys manifest)).
  { apply (bool_decide_unpack _). vm_compute. exact I. }
  split; [exact Hnd|]. apply (packages_distinct manifest Hnd).
Defined.

Section Entries.

Context {host : Host}.

Local Abbreviation moduleRoot packageName :=
  (join baseDir ("node_modules/@wordpress/" ++ packageName)).

Lemma entry_of_own_key (packages : list string) :
  (forall p q, In p packages -> In q packages ->
     camelCaseDash p = camelCaseDash q -> p = q) ->
  (forall p, In p packages -> camelCaseDash p <> "__proto__") ->
  forall p, In p packages ->
    entry_of packages !! camelCaseDash p = Some (moduleRoot p).
Proof.
  intros Hinj Hproto p Hin. rewrite entry_of_lookup by now apply Hproto.
  destruct (List.find _ _) as [q|] eqn:F.
  - apply find_some in F as [Hq Heq]. apply String.eqb_eq in Heq.
    apply in_rev in Hq. now rewrite (Hinj q p Hq Hin Heq).
  - apply in_rev in Hin. apply (find_none _ _ F) in Hin.
    now rewrite String.eqb_refl in Hin.
Qed.

Lemma entry_of_size (packages : list string) :
  (forall p q, In p packages -> In q packages ->
     camelCaseDash p = camelCaseDash q -> p = q) ->
  (forall p, In p packages -> camelCaseDash p <> "__proto__") ->
  NoDup packages -> size (entry_of packages) = List.length packages.
Proof.
  induction packages as [|p packages IH] using rev_ind;
    intros Hinj Hproto Hnd; [reflexivity|].
  apply NoDup_app in Hnd as (Hnd & Hp & _).
  rewrite entry_of_snoc, length_app, Nat.add_1_r. unfold assign.
  assert (Hne : camelCaseDash p <> "__proto__").
  { apply Hproto, in_or_app. right. now left. }
  apply String.eqb_neq in Hne. rewrite Hne.
  rewrite map_size_insert_None.
  - f_equal. apply IH; [| |exact Hnd].
    + intros a b Ha Hb. apply Hinj; apply in_or_app; now left.
    + intros a Ha. apply Hproto, in_or_app. now left.
  - apply entry_of_fresh. intros q Hq Heq.
    assert (q = p) as ->.
    { apply Hinj; [apply in_or_app; now left
                  |apply in_or_app; right; now left|exact Heq]. }
    apply (Hp p); [now apply list_elem_of_In|constructor].
Qed.

Lemma entry_of_without_collision (packages : list string) :
  NoDup packages ->
  (forall p, In p packages -> hasUppercase p = false) ->
  ~ In "__proto__" packages ->
  (forall p, In p packages ->
     entry_of packages !! camelCaseDash p = Some (moduleRoot p))
  /\ size (entry_of packages) = List.length packages.
Proof.
  intros Hnd Hlow Hproto.
  assert (Hinj : forall p q, In p packages -> In q packages ->
                   camelCaseDash p = camelCaseDash q -> p = q).
  { intros p q Hp Hq. apply camelCaseDash_eq_inv; now apply Hlow. }
  assert (Hne : forall p, In p packages -> camelCaseDash p <> "__proto__").
  { intros p Hp Heq. apply Hproto.
    now rewrite <- (camelCaseDash_eq_inv p "__proto__" (Hlow p Hp) eq_refl Heq). }
  split; [now apply entry_of_own_key|now apply entry_of_size].
Qed.

(** X6. For a sequence of distinct package names without uppercase letters,
    "__proto__" not among them, the entry map has no collision: every
    package has its own key, the camel-case name, mapped to its own module
    root, and there are as many keys as packages. *)
Theorem entry_of_lowercase_names (packages : list string) :
  NoDup packages ->
  (forall p, In p packages -> hasUppercase p = false) ->
  ~ In "__proto__" packages ->
  (forall p, In p packages ->
     entry_of packages !! camelCaseDash p = Some (moduleRoot p))
  /\ size (entry_of packages) = List.length packages.
Proof. apply entry_of_without_collision. Qed.

(** X7. End to end: when the manifest's dependency names are distinct and
    free of uppercase letters and "@wordpress/__proto__" is not one of them,
    every call returns an entry map with one key per "@wordpress/" dependency,
    its camel-case name without the prefix, mapped to its module root. *)
Theorem module_exports_entry (argument : option Env) :
  NoDup (Object_keys dependencies) ->
  (forall key, In key (Object_keys dependencies) -> hasUppercase key = false) ->
  ~ In "@wordpress/__proto__" (Object_keys dependencies) ->
  (forall name, In ("@wordpress/" ++ name) (Object_keys dependencies) ->
     entry (module_exports argument) !! camelCaseDash name = Some (moduleRoot name))
  /\ size (entry (module_exports argument))
     = List.length
         (List.filter (fun key => startsWith key "@wordpress/")
            (Object_keys dependencies)).
Proof.
  intros Hnd Hlow Hproto.
  assert (Hentry : entry (module_exports argument)
                   = entry_of (packages dependencies)).
  { unfold module_exports, add_live_reload, build_override, set_devtool.
    repeat match goal with |- context [if ?b then _ else _] => destruct b end;
      reflexivity. }
  rewrite Hentry.
  destruct (entry_of_without_collision (packages dependencies)) as [Hkey Hsize].
  - now apply packages_NoDup.
  - intros p Hp. apply packages_In in Hp. apply Hlow in Hp.
    rewrite hasUppercase_append in Hp. now apply orb_false_iff in Hp as [_ Hp].
  - intros Hp. now apply packages_In in Hp.
  - split.
    + intros name Hin. apply Hkey. now apply packages_In.
    + rewrite Hsize, <- packages_prefixed. now rewrite length_map.
Qed.

End Entries.

Lemma entry_of_lowercase_names_witness :
  NoDup [ "a11y"; "api-fetch" ]
  /\ size (@entry_of posix_host [ "a11y"; "api-fetch" ]) = 2%nat.
Proof.
  assert (Hnd : NoDup [ "a11y"; "api-fetch" ]).
  { apply (bool_decide_unpack _). vm_compute. exact I. }
  split; [exact Hnd|].
  apply (@entry_of_lowercase_names posix_host [ "a11y"; "api-fetch" ] Hnd).
  - intros p [<-|[<-|[]]]; reflexivity.
  - intros [H|[H|[]]]; discriminate.
Defined.

Lemma module_exports_entry_witness :
  NoDup (Object_keys manifest)
  /\ entry (@module_exports posix_host None) !! camelCaseDash "api-fetch"
     = Some "/repo/node_modules/@wordpress/api-fetch".
Proof.
  assert (Hnd : NoDup (Object_keys manifest)).
  { apply (bool_decide_unpack _). vm_compute. exact I. }
  split; [exact Hnd|].
  apply (@module_exports_entry posix_host None Hnd).
  - intros key [<-|[<-|[<-|[]]]]; reflexivity.
  - intros [H|[H|[H|[]]]]; discriminate.
  - right. right. left. reflexivity.
Defined.

(** ** The returned configuration, for every options object *)

Lemma strict_eq_exclusive v a b :
  a <> b -> strict_eq v a = true -> strict_eq v b = false.
Proof.
  intros Hab Ha. apply strict_eq_iff in Ha as ->. cbn.
  now apply String.eqb_neq.
Qed.

Lemma strict_eq_neq v literal :
  strict_eq v literal = false <-> v <> VString literal.
Proof.
  split.
  - intros H Heq. apply strict_eq_iff in Heq. congruence.
  - apply strict_eq_false.
Qed.

Lemma Forall2_map_self {A B : Type} (f : A -> B) (P : A -> B -> Prop) (l : list A) :
  (forall a, P a (f a)) -> Forall2 P l (map f l).
Proof. intros H. induction l as [|a l IH]; constructor; auto. Qed.

Ltac strict_eq_facts :=
  repeat match goal with
         | H : strict_eq _ _ = true |- _ => apply strict_eq_iff in H
         | H : strict_eq _ _ = false |- _ => apply strict_eq_neq in H
         end.

Section Configuration.

Context {host : Host}.

(** [process.env.WORDPRESS_LIVE_RELOAD_PORT || 35729] *)
Local Abbreviation live_reload_port :=
  (match process_env "WORDPRESS_LIVE_RELOAD_PORT" with
   | Some port => if String.eqb port "" then inr 35729%Z else inl port
   | None => inr 35729%Z
   end).

(** The four properties the steps after the literal assign, by the three
    tests the code makes. *)
Lemma module_exports_fields (env : Env) :
  let production := strict_eq (environment env) "production" in
  let development := strict_eq (environment env) "development" in
  let build := strict_eq (env_buildTarget env) "build/" in
  mode (module_exports (Some env))
  = (if development && build then VString "production" else environment env)
  /\ devtool (module_exports (Some env))
     = (if production || (development && build) then None
        else Some (env_or (process_env "SOURCEMAP") "source-map"))
  /\ optimization (module_exports (Some env))
     = (if development && build then Some false else None)
  /\ plugins (module_exports (Some env))
     = (if development && negb build
        then plugins (config_literal env) ++ [ LiveReloadPlugin live_reload_port ]
        else plugins (config_literal env))%list
  /\ entry (module_exports (Some env)) = entry_of (packages dependencies)
  /\ output (module_exports (Some env)) = output (config_literal env)
  /\ watch (module_exports (Some env)) = env_watch env.
Proof.
  intros production development build.
  unfold module_exports, set_devtool. cbn [config_literal mode].
  fold production.
  destruct production eqn:P; cbn [negb];
    unfold build_override; fold development build;
    destruct development eqn:D; destruct build eqn:B; cbn [andb orb negb];
    unfold add_live_reload; cbn [reassign mode config_literal];
    fold production development; rewrite ?P, ?D;
    try (subst production development;
         rewrite (strict_eq_exclusive _ "production" "development") in D
           by (discriminate || exact P); discriminate);
    cbn; repeat split; reflexivity.
Qed.

(** X8. A live-reload plugin is in the returned plugin list exactly when the
    requested mode is "development" and the override is not "build/"; it is
    then the one plugin added after the literal list, listening on
    WORDPRESS_LIVE_RELOAD_PORT when that variable is set and not empty and on
    35729 otherwise.  In every other case the plugin list is the literal
    one. *)
Theorem live_reload_only_in_development (env : Env) :
  (existsb isLiveReload (plugins (module_exports (Some env))) = true
   <-> environment env = VString "development"
       /\ env_buildTarget env <> VString "build/")
  /\ (environment env = VString "development" ->
      env_buildTarget env <> VString "build/" ->
      (forall port, process_env "WORDPRESS_LIVE_RELOAD_PORT" = Some port ->
         port <> "" ->
         plugins (module_exports (Some env))
         = (plugins (config_literal env) ++ [ LiveReloadPlugin (inl port) ])%list)
      /\ (process_env "WORDPRESS_LIVE_RELOAD_PORT" = None
          \/ process_env "WORDPRESS_LIVE_RELOAD_PORT" = Some "" ->
          plugins (module_exports (Some env))
          = (plugins (config_literal env)
               ++ [ LiveReloadPlugin (inr 35729%Z) ])%list))
  /\ (~ (environment env = VString "development"
         /\ env_buildTarget env <> VString "build/") ->
      plugins (module_exports (Some env)) = plugins (config_literal env)).
Proof.
  destruct (module_exports_fields env) as (_ & _ & _ & Hplugins & _).
  rewrite Hplugins. clear Hplugins.
  destruct (strict_eq (environment env) "development") eqn:D;
    destruct (strict_eq (env_buildTarget env) "build/") eqn:B; cbn [andb negb];
    strict_eq_facts.
  - split; [|split].
    + split; [discriminate|]. intros [_ H]. contradiction.
    + intros _ H. contradiction.
    + reflexivity.
  - split; [|split].
    + split; [now intros _|reflexivity].
    + intros _ _. split.
      * intros port -> Hne. apply String.eqb_neq in Hne. now rewrite Hne.
      * intros [->| ->]; reflexivity.
    + intros H. exfalso. apply H. now split.
  - split; [|split].
    + split; [discriminate|]. intros [H _]. contradiction.
    + intros H. contradiction.
    + reflexivity.
  - split; [|split].
    + split; [discriminate|]. intros [H _]. contradiction.
    + intros H. contradiction.
    + reflexivity.
Qed.

(** X9. The returned configuration has no devtool exactly when the requested
    mode is "production" or the call is a development call with override
    "build/"; any devtool it has is SOURCEMAP, or "source-map" when that
    variable is unset or empty.  So a mode that is neither "production" nor
    "development" gets source maps but no live reload. *)
Theorem devtool_unless_production (env : Env) :
  (devtool (module_exports (Some env)) = None
   <-> environment env = VString "production"
       \/ (environment env = VString "development"
           /\ env_buildTarget env = VString "build/"))
  /\ (forall style, devtool (module_exports (Some env)) = Some style ->
        style = env_or (process_env "SOURCEMAP") "source-map").
Proof.
  destruct (module_exports_fields env) as (_ & Hdevtool & _).
  rewrite Hdevtool. clear Hdevtool.
  destruct (strict_eq (environment env) "production") eqn:P; cbn [orb].
  { strict_eq_facts. split; [|discriminate]. split; [now left|reflexivity]. }
  destruct (strict_eq (environment env) "development") eqn:D;
    destruct (strict_eq (env_buildTarget env) "build/") eqn:B; cbn [andb];
    strict_eq_facts.
  - split; [|discriminate]. split; [right; now split|reflexivity].
  - split; [|now intros style [= <-]]. split; [discriminate|].
    intros [H|[_ H]]; contradiction.
  - split; [|now intros style [= <-]]. split; [discriminate|].
    intros [H|[H _]]; contradiction.
  - split; [|now intros style [= <-]]. split; [discriminate|].
    intros [H|[H _]]; contradiction.
Qed.

(** X10. The returned mode is the requested one, except that a development
    call with override "build/" returns "production"; that call is also the
    only one whose configuration has an [optimization] property, and it turns
    minimisation off. *)
Theorem returned_mode_and_optimization (env : Env) :
  (environment env = VString "development" ->
   env_buildTarget env = VString "build/" ->
   mode (module_exports (Some env)) = VString "production"
   /\ optimization (module_exports (Some env)) = Some false)
  /\ (~ (environment env = VString "development"
         /\ env_buildTarget env = VString "build/") ->
      mode (module_exports (Some env)) = environment env
      /\ optimization (module_exports (Some env)) = None)
  /\ (mode (module_exports (Some env)) = VString "production"
      <-> environment env = VString "production"
          \/ (environment env = VString "development"
              /\ env_buildTarget env = VString "build/")).
Proof.
  destruct (module_exports_fields env) as (Hmode & _ & Hopt & _).
  rewrite Hmode, Hopt. clear Hmode Hopt.
  destruct (strict_eq (environment env) "development") eqn:D;
    destruct (strict_eq (env_buildTarget env) "build/") eqn:B; cbn [andb];
    strict_eq_facts.
  - split; [now split|]. split.
    + intros H. exfalso. apply H. now split.
    + split; [intros _; right; now split|reflexivity].
  - split; [intros _ H; contradiction|]. split; [now split|].
    rewrite D. split; [discriminate|].
    intros [H|[_ H]]; [discriminate|contradiction].
  - split; [intros H; contradiction|]. split; [now split|].
    split; [now left|]. intros [H|[H _]]; [exact H|contradiction].
  - split; [intros H; contradiction|]. split; [now split|].
    split; [now left|]. intros [H|[H _]]; [exact H|contradiction].
Qed.

(** X11. Bundles are named "[basename].min.js" exactly when the requested
    mode is "production", "[basename].js" otherwise, and are written to
    "/js/dist" under the effective build target. *)
Theorem output_filename_by_mode (env : Env) :
  (filename (output (module_exports (Some env))) = "[basename].min.js"
   <-> environment env = VString "production")
  /\ (environment env <> VString "production" ->
      filename (output (module_exports (Some env))) = "[basename].js")
  /\ path (output (module_exports (Some env)))
     = join baseDir (buildTarget env ++ "/js/dist").
Proof.
  destruct (module_exports_fields env) as (_ & _ & _ & _ & _ & Hout & _).
  rewrite Hout. cbn [config_literal output filename path]. unfold suffix.
  destruct (strict_eq (environment env) "production") eqn:P.
  - apply strict_eq_iff in P. split; [now split|]. split; [|reflexivity].
    intros H. contradiction.
  - apply strict_eq_neq in P. split; [|split; reflexivity].
    split; [discriminate|]. intros H. contradiction.
Qed.

(** X12. A development call with override "build/" returns mode "production"
    but builds what a development call builds, under "build//wp-includes"
    (the override plus "/wp-includes"): bundles named without ".min"; a copy
    plugin whose list starts with the nine unminified vendor files, none with
    a transform, followed by one stylesheet copy per package whose transforms
    return content and path as they are. *)
Theorem development_build_artefacts (env : Env) :
  environment env = VString "development" ->
  env_buildTarget env = VString "build/" ->
  mode (module_exports (Some env)) = VString "production"
  /\ filename (output (module_exports (Some env))) = "[basename].js"
  /\ path (output (module_exports (Some env)))
     = join baseDir "build//wp-includes/js/dist"
  /\ exists vendor stylesheets others,
       In (CopyWebpackPlugin (vendor ++ stylesheets ++ others)%list)
         (plugins (module_exports (Some env)))
       /\ vendor
          = map (fun '(relative, filename) =>
                   {| from := join baseDir ("node_modules/" ++ relative);
                      to := join baseDir ("build//wp-includes/js/dist/vendor/" ++ filename);
                      test := None;
                      flatten := false;
                      transform := None;
                      transformPath := None |})
              [ ("lodash/lodash.js", "lodash.js");
                ("@babel/polyfill/dist/polyfill.js", "wp-polyfill.js");
                ("whatwg-fetch/dist/fetch.umd.js", "wp-polyfill-fetch.js");
                ("element-closest/element-closest.js",
                   "wp-polyfill-element-closest.js");
                ("polyfill-library/polyfills/Node/prototype/contains/polyfill.js",
                   "wp-polyfill-node-contains.js");
                ("formdata-polyfill/FormData.js", "wp-polyfill-formdata.js");
                ("moment/moment.js", "moment.js");
                ("react/umd/react.development.js", "react.js");
                ("react-dom/umd/react-dom.development.js", "react-dom.js") ]
       /\ Forall2
         (fun packageName c =>
            from c
            = join baseDir
                ("node_modules/@wordpress/" ++ packageName ++ "/build-style/*.css")
            /\ to c = join baseDir ("build//wp-includes/css/dist/" ++ packageName ++ "/")
            /\ exists t tp,
                 transform c = Some t /\ transformPath c = Some tp
                 /\ (forall input, t input = Return (Unchanged input))
                 /\ (forall targetPath sourcePath,
                       tp targetPath sourcePath = targetPath))
         (packages dependencies) stylesheets.
Proof.
  intros Hmode Htarget.
  destruct (module_exports_fields env) as (Hm & _ & _ & Hp & _ & Hout & _).
  rewrite Hm, Hp, Hout. cbn [config_literal output filename path plugins].
  unfold buildTarget, suffix, vendorCopies, developmentCopies.
  rewrite Hmode, Htarget. cbn [strict_eq String.eqb Ascii.eqb Bool.eqb andb negb truthy ToString].
  split; [reflexivity|]. split; [reflexivity|]. split; [reflexivity|].
  eexists _, (cssCopies (packages dependencies) (VString "development")
                "build//wp-includes"), _.
  split; [right; right; right; right; left; reflexivity|].
  split; [reflexivity|].
  apply Forall2_map_self. intros packageName.
  split; [reflexivity|]. split; [reflexivity|].
  exists (css_transform (VString "development")),
    (css_transformPath (VString "development")).
  repeat split.
Qed.

End Configuration.

Lemma live_reload_only_in_development_witness :
  environment development_watch = VString "development"
  /\ plugins (@module_exports posix_host (Some development_watch))
     = (plugins (@config_literal posix_host development_watch)
          ++ [ LiveReloadPlugin (inr 35729%Z) ])%list.
Proof.
  split; [reflexivity|].
  apply (proj1 (proj2 (@live_reload_only_in_development posix_host
                         development_watch))).
  - reflexivity.
  - discriminate.
  - left. reflexivity.
Defined.

Lemma devtool_unless_production_witness :
  devtool (@module_exports posix_host None) = None
  /\ devtool (@module_exports posix_host (Some test_run)) = Some "source-map".
Proof.
  split.
  - apply (proj1 (@devtool_unless_production posix_host default_env)).
    left. reflexivity.
  - destruct (devtool (@module_exports posix_host (Some test_run))) as [style|] eqn:E.
    + f_equal.
      apply (proj2 (@devtool_unless_production posix_host test_run) style E).
    + discriminate E.
Defined.

Lemma returned_mode_and_optimization_witness :
  environment development_build = VString "development"
  /\ optimization (@module_exports posix_host (Some development_build))
     = Some false.
Proof.
  split; [reflexivity|].
  apply (proj1 (@returned_mode_and_optimization posix_host development_build));
    reflexivity.
Defined.

Lemma output_filename_by_mode_witness :
  filename (output (@module_exports posix_host None)) = "[basename].min.js"
  /\ filename (output (@module_exports posix_host (Some development_watch)))
     = "[basename].js".
Proof.
  split.
  - apply (proj1 (@output_filename_by_mode posix_host default_env)).
    reflexivity.
  - apply (proj1 (proj2 (@output_filename_by_mode posix_host development_watch))).
    discriminate.
Defined.

Lemma development_build_artefacts_witness :
  environment development_build = VString "development"
  /\ exists copies,
       In (CopyWebpackPlugin copies)
         (plugins (@module_exports posix_host (Some development_build)))
       /\ map (fun c => (to c, option_map (fun t => t []) (transform c)))
            (firstn 3 copies)
          = [ ("/repo/build/wp-includes/js/dist/vendor/lodash.js", None);
              ("/repo/build/wp-includes/js/dist/vendor/wp-polyfill.js", None);
              ("/repo/build/wp-includes/js/dist/vendor/wp-polyfill-fetch.js",
                 None) ].
Proof.
  split; [reflexivity|].
  destruct (@development_build_artefacts posix_host development_build
              eq_refl eq_refl)
    as (_ & _ & _ & vendor & stylesheets & others & Hin & Hvendor & _).
  exists (vendor ++ stylesheets ++ others)%list. split; [exact Hin|].
  rewrite Hvendor. reflexivity.
Defined.

(** ** Stylesheet transforms *)

Lemma css_suffix_length stem : stem ++ ".min.css" <> stem ++ ".css".
Proof.
  intros H. apply (f_equal String.length) in H.
  rewrite !length_append in H. cbn in H. lia.
Qed.

Lemma replace_css_end_cases p :
  (exists stem, p = stem ++ ".css" /\ replace_css_end p = stem ++ ".min.css")
  \/ ((forall stem, p <> stem ++ ".css") /\ replace_css_end p = p).
Proof.
  induction p as [|c rest IH].
  - right. split; [|reflexivity]. intros [|d stem]; discriminate.
  - destruct (String.eqb (String c rest) ".css") eqn:E.
    + apply String.eqb_eq in E. left. exists "". now rewrite E.
    + cbn [replace_css_end]. rewrite E. apply String.eqb_neq in E.
      destruct IH as [(stem & -> & Hr)|[Hno Hr]].
      * left. exists (String c stem). now rewrite Hr.
      * right. rewrite Hr. split; [|reflexivity].
        intros [|d stem] H; [now apply E|].
        rewrite append_String in H. injection H as _ H. now apply (Hno stem).
Qed.

Lemma replace_css_end_fixed p :
  replace_css_end p = p -> forall stem, p <> stem ++ ".css".
Proof.
  intros Hfix.
  destruct (replace_css_end_cases p) as [(stem & -> & Hr)|[Hno _]];
    [|exact Hno].
  rewrite Hfix in Hr. symmetry in Hr. now apply css_suffix_length in Hr.
Qed.

(** X13. The path transform of a stylesheet copy returns the target path
    unchanged exactly when the mode is not "production" or the path does not
    end in ".css"; the source path plays no part. *)
Theorem css_transformPath_unchanged_iff (mode : value) (targetPath sourcePath : string) :
  css_transformPath mode targetPath sourcePath = targetPath
  <-> mode <> VString "production"
      \/ (forall stem, targetPath <> stem ++ ".css").
Proof.
  unfold css_transformPath.
  destruct (strict_eq mode "production") eqn:P; strict_eq_facts.
  - destruct (replace_css_end_cases targetPath) as [(stem & -> & Hr)|[Hno Hr]];
      rewrite Hr.
    + split.
      * intros H. now apply css_suffix_length in H.
      * intros [H|H]; [contradiction|]. now specialize (H stem).
    + split; [now right|reflexivity].
  - split; [now left|reflexivity].
Qed.

Lemma css_transformPath_unchanged_iff_witness :
  css_transformPath (VString "production")
    "/repo/build/wp-includes/css/dist/a11y/style.css.map" "style.css.map"
  = "/repo/build/wp-includes/css/dist/a11y/style.css.map".
Proof.
  apply (proj2 (css_transformPath_unchanged_iff (VString "production")
                  "/repo/build/wp-includes/css/dist/a11y/style.css.map"
                  "style.css.map")).
  right. apply replace_css_end_fixed. reflexivity.
Defined.

(** ** The path template callback *)

Lemma select_rawRequest_throws m e :
  select_rawRequest m = Throw e ->
  type m = Some "javascript/esm" /\ forall root, rootModule m <> Present root.
Proof.
  unfold select_rawRequest. destruct (type m) as [t|]; [|discriminate].
  destruct (String.eqb t "javascript/auto"); [discriminate|].
  destruct (String.eqb t "javascript/esm") eqn:E; [|discriminate].
  apply String.eqb_eq in E as ->.
  destruct (rootModule m); try discriminate; now split.
Qed.

(** X15. The callback throws in two cases only: the chunk's entry module is
    [null], or it has type "javascript/esm" and its root module is
    [undefined] or [null].  Without a chunk, or with a chunk whose entry
    module is [undefined], it never throws. *)
Theorem templated_basename_throws_iff (basename : string -> string)
    (path : string) (data : PathData) :
  (exists e, templated_basename basename path data = Throw e)
  <-> (exists c, chunk data = Present c /\ entryModule c = Null)
      \/ (exists c m,
            chunk data = Present c /\ entryModule c = Present m
            /\ type m = Some "javascript/esm"
            /\ forall root, rootModule m <> Present root).
Proof.
  unfold templated_basename, get_entryModule. split.
  - intros [e He].
    destruct (chunk data) as [| |c]; try discriminate.
    destruct (entryModule c) as [| |m] eqn:Hm; try discriminate.
    + left. now exists c.
    + right. exists c, m. split; [reflexivity|]. split; [exact Hm|].
      destruct (select_rawRequest m) as [[request|]|e'] eqn:S.
      * destruct (String.eqb request ""); discriminate.
      * discriminate.
      * now apply select_rawRequest_throws in S.
  - intros [(c & -> & ->)|(c & m & -> & -> & Ht & Hr)].
    + eexists. reflexivity.
    + unfold select_rawRequest. rewrite Ht. cbn.
      destruct (rootModule m) as [| |root]; try (eexists; reflexivity).
      now destruct (Hr root).
Qed.

Lemma templated_basename_throws_iff_witness :
  (exists e,
     templated_basename last_segment "[basename].js" (data_of rootless_module)
     = Throw e)
  /\ (exists e,
        templated_basename last_segment "[basename].js" null_entry = Throw e).
Proof.
  split.
  - apply (proj2 (templated_basename_throws_iff last_segment "[basename].js"
                    (data_of rootless_module))).
    right. exists {| entryModule := Present rootless_module |}, rootless_module.
    repeat split; try reflexivity. discriminate.
  - apply (proj2 (templated_basename_throws_iff last_segment "[basename].js"
                    null_entry)).
    left. exists {| entryModule := Null |}. split; reflexivity.
Defined.

(** X16. What the callback returns.  For an entry module of type
    "javascript/auto" with a non-empty request: the basename of that request.
    For type "javascript/esm" with a root module: the basename of the
    non-empty request of the root module, the module's own request being
    ignored.  The path it was given: when the chunk is [undefined] or [null],
    when the entry module is [undefined], when the type is any other or
    absent, and when the selected request is absent or empty.  Nothing at
    all when the entry module is [null]: the call throws. *)
Theorem templated_basename_result (basename : string -> string)
    (path : string) (data : PathData) :
  ((forall c, chunk data <> Present c)
   \/ (exists c, chunk data = Present c /\ entryModule c = Undefined) ->
   templated_basename basename path data = Return path)
  /\ (forall c, chunk data = Present c -> entryModule c = Null ->
      exists e, templated_basename basename path data = Throw e)
  /\ (forall c m, chunk data = Present c -> entryModule c = Present m ->
        (type m = Some "javascript/auto" ->
           (forall request, rawRequest m = Some request -> request <> "" ->
              templated_basename basename path data = Return (basename request))
           /\ (rawRequest m = None \/ rawRequest m = Some "" ->
               templated_basename basename path data = Return path))
        /\ (type m = Some "javascript/esm" ->
            forall root, rootModule m = Present root ->
              (forall request, rawRequest root = Some request -> request <> "" ->
                 templated_basename basename path data
                 = Return (basename request))
              /\ (rawRequest root = None \/ rawRequest root = Some "" ->
                  templated_basename basename path data = Return path))
        /\ (type m <> Some "javascript/auto" ->
            type m <> Some "javascript/esm" ->
            templated_basename basename path data = Return path)).
Proof.
  unfold templated_basename, get_entryModule. split; [|split].
  - intros [Hno|(c & -> & ->)]; [|reflexivity].
    destruct (chunk data) as [| |c]; try reflexivity. now destruct (Hno c).
  - intros c -> ->. eexists. reflexivity.
  - intros c m -> ->. unfold select_rawRequest. split; [|split].
    + intros ->. cbn. split.
      * intros request -> Hne. apply String.eqb_neq in Hne. now rewrite Hne.
      * intros [->| ->]; reflexivity.
    + intros -> root ->. cbn. split.
      * intros request -> Hne. apply String.eqb_neq in Hne. now rewrite Hne.
      * intros [->| ->]; reflexivity.
    + intros Hauto Hesm. destruct (type m) as [t|]; [|reflexivity].
      destruct (String.eqb t "javascript/auto") eqn:A.
      { apply String.eqb_eq in A. now subst. }
      destruct (String.eqb t "javascript/esm") eqn:E; [|reflexivity].
      apply String.eqb_eq in E. now subst.
Qed.

Lemma templated_basename_result_witness :
  templated_basename last_segment "[basename].min.js" (data_of api_fetch_module)
  = Return "api-fetch".
Proof.
  apply (proj1 (proj1 (proj2 (proj2 (templated_basename_result last_segment
                                       "[basename].min.js"
                                       (data_of api_fetch_module)))
                         {| entryModule := Present api_fetch_module |}
                         api_fetch_module eq_refl eq_refl)
                  eq_refl)
           "/repo/node_modules/@wordpress/api-fetch" eq_refl).
  discriminate.
Defined.

(** ** Modes other than "production" and "development" *)

Section OtherModes.

Context {host : Host}.

(** X17. The three decisions test the mode separately.  For a requested mode
    that is neither "production" nor "development" the copy plugin's list
    starts with the six pre-minified vendor files and the three minified on
    the fly, as in production, followed by one stylesheet copy per package
    whose transforms return content and path as they are, and bundles are
    named without ".min", as in development. *)
Theorem other_modes_mix (env : Env) :
  environment env <> VString "production" ->
  environment env <> VString "development" ->
  filename (output (module_exports (Some env))) = "[basename].js"
  /\ exists vendor stylesheets others,
       In (CopyWebpackPlugin (vendor ++ stylesheets ++ others)%list)
         (plugins (module_exports (Some env)))
       /\ vendor
          = (map (fun '(relative, filename) =>
                    {| from := join baseDir ("node_modules/" ++ relative);
                       to := join baseDir (buildTarget env ++ "/js/dist/vendor/" ++ filename);
                       test := None;
                       flatten := false;
                       transform := None;
                       transformPath := None |})
               [ ("lodash/lodash.min.js", "lodash.min.js");
                 ("@babel/polyfill/dist/polyfill.min.js", "wp-polyfill.min.js");
                 ("formdata-polyfill/formdata.min.js",
                    "wp-polyfill-formdata.min.js");
                 ("moment/min/moment.min.js", "moment.min.js");
                 ("react/umd/react.production.min.js", "react.min.js");
                 ("react-dom/umd/react-dom.production.min.js",
                    "react-dom.min.js") ]
               ++ map (fun '(relative, filename) =>
                         {| from := join baseDir ("node_modules/" ++ relative);
                            to := join baseDir
                                    (buildTarget env ++ "/js/dist/vendor/"
                                       ++ filename);
                            test := None;
                            flatten := false;
                            transform := Some minify_transform;
                            transformPath := None |})
                    [ ("whatwg-fetch/dist/fetch.umd.js",
                         "wp-polyfill-fetch.min.js");
                      ("element-closest/element-closest.js",
                         "wp-polyfill-element-closest.min.js");
                      ("polyfill-library/polyfills/Node/prototype/contains/polyfill.js",
                         "wp-polyfill-node-contains.min.js") ])%list
       /\ (forall input,
             minify_transform input
             = match UglifyJS_minify (Buffer_toString input) with
               | Return minified => Return (Code (code minified))
               | Throw e => Throw e
               end)
       /\ Forall2
         (fun packageName c =>
            from c
            = join baseDir
                ("node_modules/@wordpress/" ++ packageName ++ "/build-style/*.css")
            /\ to c = join baseDir (buildTarget env ++ "/css/dist/" ++ packageName ++ "/")
            /\ exists t tp,
                 transform c = Some t /\ transformPath c = Some tp
                 /\ (forall input, t input = Return (Unchanged input))
                 /\ (forall targetPath sourcePath,
                       tp targetPath sourcePath = targetPath))
         (packages dependencies) stylesheets.
Proof.
  intros Hp Hd.
  destruct (module_exports_fields env) as (_ & _ & _ & Hplugins & _ & Hout & _).
  rewrite Hplugins, Hout. cbn [config_literal output filename plugins].
  unfold vendorCopies, suffix.
  rewrite !(strict_eq_false _ _ Hp), !(strict_eq_false _ _ Hd). cbn [andb].
  split; [reflexivity|].
  eexists _, (cssCopies (packages dependencies) (environment env)
                (buildTarget env)), _.
  split; [right; right; right; right; left; reflexivity|].
  split; [reflexivity|]. split; [reflexivity|].
  apply Forall2_map_self. intros packageName.
  split; [reflexivity|]. split; [reflexivity|].
  exists (css_transform (environment env)),
    (css_transformPath (environment env)).
  split; [reflexivity|]. split; [reflexivity|].
  unfold css_transform, css_transformPath.
  rewrite !(strict_eq_false _ _ Hp). split; reflexivity.
Qed.

End OtherModes.

Lemma other_modes_mix_witness :
  environment test_run <> VString "production"
  /\ exists copies,
       In (CopyWebpackPlugin copies)
         (plugins (@module_exports posix_host (Some test_run)))
       /\ map (fun c => (to c, option_map (fun t => t []) (transform c)))
            (firstn 9 copies)
          = [ ("/repo/src/wp-includes/js/dist/vendor/lodash.min.js", None);
              ("/repo/src/wp-includes/js/dist/vendor/wp-polyfill.min.js", None);
              ("/repo/src/wp-includes/js/dist/vendor/wp-polyfill-formdata.min.js",
                 None);
              ("/repo/src/wp-includes/js/dist/vendor/moment.min.js", None);
              ("/repo/src/wp-includes/js/dist/vendor/react.min.js", None);
              ("/repo/src/wp-includes/js/dist/vendor/react-dom.min.js", None);
              ("/repo/src/wp-includes/js/dist/vendor/wp-polyfill-fetch.min.js",
                 Some (Return (Code (Some ""))));
              ("/repo/src/wp-includes/js/dist/vendor/wp-polyfill-element-closest.min.js",
                 Some (Return (Code (Some ""))));
              ("/repo/src/wp-includes/js/dist/vendor/wp-polyfill-node-contains.min.js",
                 Some (Return (Code (Some "")))) ].
Proof.
  assert (Hp : environment test_run <> VString "production") by discriminate.
  assert (Hd : environment test_run <> VString "development") by discriminate.
  split; [exact Hp|].
  destruct (@other_modes_mix posix_host test_run Hp Hd)
    as (_ & vendor & stylesheets & others & Hin & Hvendor & _).
  exists (vendor ++ stylesheets ++ others)%list. split; [exact Hin|].
  rewrite Hvendor. reflexivity.
Defined.
